(** * Feature assembly and sequence-encoding pipeline

  A shallow embedding of [src/features/feature_engineering.py] and
  [src/data/data_controller.py]: the table operations the two modules
  perform on pandas objects, the functions [add_blockchain_data],
  [add_all_technical_indicators], [extract_lstm_features] and [main], and the
  properties the specification states about them.

  Numeric cells are rationals ([Q]); the undefined value (NaN) is [None].
  Comparisons of finite floats are exact, so they are comparisons of
  rationals here; means are exact rational means. *)

From Stdlib Require Import ZArith QArith Qreduction Lia.
From stdpp Require Import base strings option list.
Close Scope Q_scope.

(** ** Values, labels and exceptions *)

(** A numeric cell of a table; [None] is NaN / undefined. *)
Abbreviation cell := (option Q).

(** An index label: a timestamp (seconds since the epoch, as held by a
  [DatetimeIndex]), a calendar date (days since the epoch, as held by an
  object index of [datetime.date]), or a position of the default
  [RangeIndex]. *)
Inductive label :=
  | Timestamp (t : Z)
  | Date (d : Z)
  | Pos (i : nat).

#[global] Instance label_eq_dec : EqDecision label.
Proof. solve_decision. Defined.

Definition seconds_per_day : Z := 86400.

(** The calendar day an instant falls on, and the instant a day starts at. *)
Definition day_of (t : Z) : Z := t `div` seconds_per_day.

Definition midnight (d : Z) : Z := d * seconds_per_day.

(** Join keys: an object index of dates is promoted to midnight timestamps
  when it meets a [DatetimeIndex], so a date and a timestamp are the same
  key when they denote the same instant; positions only match positions. *)
Definition join_key (l : label) : Z + nat :=
  match l with
  | Timestamp t => inl t
  | Date d => inl (midnight d)
  | Pos i => inr i
  end.

Definition is_timestamp (l : label) : bool :=
  match l with Timestamp _ => true | _ => false end.

Inductive exn :=
  | KeyError (k : string)
  | ValueError
  | TypeError
  | AttributeError
  | InvalidIndexError
  | ImportError (name : string)
  | ConfigurationError.

Inductive result (A : Type) :=
  | Ok (a : A)
  | Raise (e : exn).
Arguments Ok {A} a.
Arguments Raise {A} e.

Definition rbind {A B} (r : result A) (k : A -> result B) : result B :=
  match r with
  | Ok a => k a
  | Raise e => Raise e
  end.

(** ** Tables *)

(** A [DataFrame]: ordered column names and ordered rows, each row an index
  label with one cell per column. *)
Record DataFrame := mkDF {
  columns : list string;
  rows : list (label * list cell)
}.

Definition index (df : DataFrame) : list label := (rows df).*1.
Definition nrows (df : DataFrame) : nat := length (rows df).
Definition ncols (df : DataFrame) : nat := length (columns df).

(** Every row carries exactly one cell per column. *)
Definition wf (df : DataFrame) : Prop :=
  Forall (fun r => length r.2 = ncols df) (rows df).

Definition is_defined (c : cell) : bool :=
  match c with Some _ => true | None => false end.

Module Pandas.

(** Position of a column name. *)
Definition col_index (c : string) (cols : list string) : option nat :=
  fst <$> list_find (fun x => x = c) cols.

(** The cell of a row at a column position (NaN when the row is short). *)
Definition cell_at (j : nat) (cells : list cell) : cell :=
  default None (cells !! j).

(** [df[c]]: the values of column [c]. *)
Definition getitem (c : string) (df : DataFrame) : result (list cell) :=
  match col_index c (columns df) with
  | Some j => Ok (map (fun r => cell_at j r.2) (rows df))
  | None => Raise (KeyError c)
  end.

(** [df[c] = vals]: replaces the column when it exists, appends it
    otherwise. The values are taken by position, one per row, which is what
    assigning a series over the table's own index does; another number of
    values is an error. *)
Definition setitem (c : string) (vals : list cell) (df : DataFrame)
  : result DataFrame :=
  if bool_decide (length vals = nrows df) then
    match col_index c (columns df) with
    | Some j =>
        Ok (mkDF (columns df)
              (zip_with (fun r v => (r.1, <[j:=v]> r.2)) (rows df) vals))
    | None =>
        Ok (mkDF (columns df ++ [c])
              (zip_with (fun r v => (r.1, r.2 ++ [v])) (rows df) vals))
    end
  else Raise ValueError.

(** [s.shift(periods)]: values move by [periods] positions, the vacated
    positions are NaN. *)
Definition shift (periods : Z) (s : list cell) : list cell :=
  if (periods <? 0)%Z then
    let k := Z.to_nat (- periods) in
    drop k s ++ replicate (min k (length s)) None
  else
    let k := Z.to_nat periods in
    replicate (min k (length s)) None ++ take (length s - k) s.

(** [a > b] on two cells: false as soon as one of them is NaN. *)
Definition cell_gt (a b : cell) : bool :=
  match a, b with
  | Some x, Some y => negb (Qle_bool x y)
  | _, _ => false
  end.

(** [s1 > s2] on two series over the same index. *)
Definition series_gt (s1 s2 : list cell) : list bool :=
  zip_with cell_gt s1 s2.

(** [s.astype(int)] on a boolean series. *)
Definition astype_int (s : list bool) : list cell :=
  map (fun b : bool => Some (if b then 1%Q else 0%Q)) s.

(** Python slice bounds: a negative bound counts from the end, and bounds
    are clipped to the sequence. *)
Definition slice_bound (n i : Z) : Z :=
  if (i <? 0)%Z then Z.max 0 (i + n) else Z.min i n.

(** [l[start:stop]]. *)
Definition slice {A} (start stop : Z) (l : list A) : list A :=
  let n := Z.of_nat (length l) in
  let a := slice_bound n start in
  let b := slice_bound n stop in
  take (Z.to_nat (b - a)) (drop (Z.to_nat a) l).

(** [df.index = labels]: the new index must have one label per row. *)
Definition set_index (labels : list label) (df : DataFrame)
  : result DataFrame :=
  if bool_decide (length labels = nrows df) then
    Ok (mkDF (columns df) (zip_with (fun l r => (l, r.2)) labels (rows df)))
  else Raise ValueError.

(** [index.date]: only a [DatetimeIndex] has the attribute. *)
Definition date_of (l : label) : label :=
  match l with
  | Timestamp t => Date (day_of t)
  | _ => l
  end.

Definition index_date (labels : list label) : result (list label) :=
  if forallb is_timestamp labels
  then Ok (map date_of labels)
  else Raise AttributeError.

(** *** [pd.merge(left, right, how="left", left_index=True, right_index=True)] *)

(** Column names present on both sides get the suffixes [_x] and [_y]. (That
    recent versions of the library refuse a suffixed name that is already
    taken is left out.) *)
Definition suffixed (overlap : list string) (suffix c : string) : string :=
  if bool_decide (c ∈ overlap) then c +:+ suffix else c.

Definition merge_columns (lcols rcols : list string) : list string :=
  let overlap := filter (fun c => c ∈ rcols) lcols in
  map (suffixed overlap "_x") lcols ++ map (suffixed overlap "_y") rcols.

(** The rows of [right] whose key is the key of [l]. *)
Definition matches (l : label) (right : DataFrame) : list (label * list cell) :=
  filter (fun r => join_key r.1 = join_key l) (rows right).

(** A left row is kept once per matching right row, in the right table's
    order; with no match it is kept once, padded with NaN. The joined row is
    written under the label of the left row: what kind of index the joined
    table carries once dates have met timestamps is not modelled beyond the
    join keys. *)
Definition merge_row (right : DataFrame) (l : label * list cell)
  : list (label * list cell) :=
  match matches l.1 right with
  | [] => [(l.1, l.2 ++ replicate (ncols right) None)]
  | ms => map (fun r => (l.1, l.2 ++ r.2)) ms
  end.

Definition merge_left (left right : DataFrame) : DataFrame :=
  mkDF (merge_columns (columns left) (columns right))
       (mbind (merge_row right) (rows left)).

(** *** [df.resample("D").mean()] *)

(** Mean of the defined values of a group; NaN for a group without any. *)
Definition Qsum (xs : list Q) : Q := foldr Qplus 0%Q xs.

Definition mean (cs : list cell) : cell :=
  match omap id cs with
  | [] => None
  | xs => Some (Qred (Qsum xs / inject_Z (Z.of_nat (length xs))))
  end.

Definition timestamp_of (l : label) : Z :=
  match l with Timestamp t => t | Date d => midnight d | Pos i => Z.of_nat i end.

Definition Zmin_list (d : Z) (l : list Z) : Z := foldr Z.min d l.
Definition Zmax_list (d : Z) (l : list Z) : Z := foldr Z.max d l.

(** The calendar days from [lo] to [hi], both included. *)
Definition day_range (lo hi : Z) : list Z :=
  map (fun k => (lo + Z.of_nat k)%Z) (seq 0 (Z.to_nat (hi - lo + 1))).

(** The samples of a table that fall on day [d]. *)
Definition samples_on (d : Z) (df : DataFrame) : list (label * list cell) :=
  filter (fun r => day_of (timestamp_of r.1) = d) (rows df).

(** One row per calendar day between the first and the last sample, each
    column holding the mean of that day's samples. Only a [DatetimeIndex]
    can be resampled. *)
Definition resample_D_mean (df : DataFrame) : result DataFrame :=
  if forallb is_timestamp (index df) then
    match index df with
    | [] => Ok (mkDF (columns df) [])
    | l0 :: _ =>
        let days := map (fun l => day_of (timestamp_of l)) (index df) in
        let lo := Zmin_list (day_of (timestamp_of l0)) days in
        let hi := Zmax_list (day_of (timestamp_of l0)) days in
        Ok (mkDF (columns df)
              (map (fun d =>
                      (Timestamp (midnight d),
                       map (fun j => mean (map (fun r => cell_at j r.2)
                                             (samples_on d df)))
                           (seq 0 (ncols df))))
                   (day_range lo hi)))
    end
  else Raise TypeError.

(** *** [pd.concat([df1, df2], axis=1)] *)

(** The cells of the row labelled [l], NaN when the table has no such row. *)
Definition row_or_nan (l : label) (df : DataFrame) : list cell :=
  match list_find (fun r => r.1 = l) (rows df) with
  | Some (_, r) => r.2
  | None => replicate (ncols df) None
  end.

(** Outer join on the index: equal indexes are glued row by row; otherwise
    both indexes must be duplicate-free, and the result is indexed by the
    labels of [df1] followed by the labels only [df2] has. *)
Definition concat_axis1 (df1 df2 : DataFrame) : result DataFrame :=
  if bool_decide (index df1 = index df2) then
    Ok (mkDF (columns df1 ++ columns df2)
          (zip_with (fun r1 r2 => (r1.1, r1.2 ++ r2.2)) (rows df1) (rows df2)))
  else if bool_decide (NoDup (index df1) ∧ NoDup (index df2)) then
    Ok (mkDF (columns df1 ++ columns df2)
          (map (fun l => (l, row_or_nan l df1 ++ row_or_nan l df2))
               (index df1 ++ filter (fun l => l ∉ index df1) (index df2))))
  else Raise InvalidIndexError.

(** [df.drop(c, axis=1)]: the table without column [c]. *)
Definition drop_column (c : string) (df : DataFrame) : result DataFrame :=
  match col_index c (columns df) with
  | Some j =>
      Ok (mkDF (delete j (columns df))
            (map (fun r => (r.1, delete j r.2)) (rows df)))
  | None => Raise (KeyError c)
  end.

(** [pd.DataFrame(vals, columns=[c])]: one column over the default index. *)
Definition DataFrame_of_column (c : string) (vals : list cell) : DataFrame :=
  mkDF [c] (imap (fun i v => (Pos i, [v])) vals).

End Pandas.

(** Modelled from the spec: [clean_data] of [src/data/data_cleaning.py], which
  is not part of the sources at hand. It drops the rows containing any
  undefined value and keeps the others as they are. *)
Definition clean (df : DataFrame) : DataFrame :=
  mkDF (columns df) (filter (fun r => forallb is_defined r.2) (rows df)).

(** ** Objects and effects

  Tables are Python objects: a variable holds a reference, and an
  assignment to a column or to the index of a table changes the object every
  holder of the reference sees. The state also counts the training epochs
  that have been run. *)

Abbreviation ref := nat.

Record world := mkWorld {
  heap : list DataFrame;
  epochs_run : nat
}.

Definition M (A : Type) : Type := world -> result A * world.

#[global] Instance M_ret : MRet M := fun A a w => (Ok a, w).

#[global] Instance M_bind : MBind M := fun A B k m w =>
  match m w with
  | (Ok a, w') => k a w'
  | (Raise e, w') => (Raise e, w')
  end.

(** A pure computation that may raise. *)
Definition lift {A} (r : result A) : M A := fun w => (r, w).

Definition deref (r : ref) : M DataFrame := fun w =>
  match heap w !! r with
  | Some df => (Ok df, w)
  | None => (Raise TypeError, w)
  end.

(** In-place update of the object behind a reference. *)
Definition assign (r : ref) (df : DataFrame) : M unit := fun w =>
  (Ok tt, mkWorld (<[r:=df]> (heap w)) (epochs_run w)).

(** A new object. *)
Definition alloc (df : DataFrame) : M ref := fun w =>
  (Ok (length (heap w)), mkWorld (heap w ++ [df]) (epochs_run w)).

(** [epochs] training passes over the windows. *)
Definition run_epochs (epochs : nat) : M unit := fun w =>
  (Ok tt, mkWorld (heap w) (epochs_run w + epochs)).

(** [data[c]] *)
Definition getitem_at (data : ref) (c : string) : M (list cell) :=
  df ← deref data; lift (Pandas.getitem c df).

(** [data[c] = vals] *)
Definition setitem_at (data : ref) (c : string) (vals : list cell) : M unit :=
  df ← deref data;
  df' ← lift (Pandas.setitem c vals df);
  assign data df'.

(** [clean_data(data)]: the cleaned table is a new object. *)
Definition clean_data (data : ref) : M ref :=
  df ← deref data; alloc (clean df).

(** ** Collaborators outside the sources at hand *)

(** [src/features/ta.py]: each indicator maps price columns to columns over
  the same rows. *)
Record ta_library := {
  calculate_bollinger_bands : list cell -> list cell * list cell * list cell;
  calculate_stochastic_oscillator : DataFrame -> list cell * list cell;
  calculate_macd : list cell -> list cell * list cell * list cell;
  calculate_rsi : list cell -> list cell;
  calculate_sma : list cell -> list cell;
  calculate_ema : list cell -> list cell;
  calculate_atr : DataFrame -> list cell;
  calculate_macd_histogram : list cell -> list cell;
  calculate_obv : DataFrame -> list cell;
  calculate_cci : DataFrame -> list cell
}.

(** [src/features/blockchain.py]: one fetch per auxiliary series, from a
  timespan and an optional start date. *)
Record blockchain_api := {
  get_hash_rate_over_time : string -> option string -> DataFrame;
  get_avg_block_size : string -> option string -> DataFrame;
  get_network_difficulty : string -> option string -> DataFrame;
  get_miners_revenue : string -> option string -> DataFrame;
  get_mempool_size : string -> option string -> DataFrame
}.

(** A window: [L] consecutive rows of cells. The output of the network on a
  window: [L] rows of hidden activations. *)
Definition window := list (list cell).

(** [src/features/extraction/lstm.py] and the network it builds. *)
Record lstm_library := {
  model : Type;
  create_sequences : DataFrame -> Z -> result (list window);
  build_lstm_model : Z * nat -> model;
  train_model : model -> list window -> nat -> model;
  predict : model -> list window -> list window
}.

(** [a.mean(axis=(1, 2))] on one element of the batch: the mean of all its
  entries, NaN when one of them is NaN or when there is none. *)
Definition mean_all (a : window) : cell :=
  let entries := concat a in
  if forallb is_defined entries then
    match omap id entries with
    | [] => None
    | xs => Some (Qred (Pandas.Qsum xs / inject_Z (Z.of_nat (length xs))))
    end
  else None.

(** ** [src/features/feature_engineering.py] *)

Section FeatureEngineering.
Context (api : blockchain_api) (ta : ta_library) (lstm : lstm_library).

(** The five left joins of [add_blockchain_data], the last one on the
    mempool series resampled to daily means. *)
Definition merge_blockchain_data
    (data hash_rate_data avg_block_size_data network_difficulty_data
       miners_revenue_data mempool_size_data : DataFrame)
  : result DataFrame :=
  let data := Pandas.merge_left data hash_rate_data in
  let data := Pandas.merge_left data avg_block_size_data in
  let data := Pandas.merge_left data network_difficulty_data in
  let data := Pandas.merge_left data miners_revenue_data in
  rbind (Pandas.resample_D_mean mempool_size_data) (fun mempool_size_data =>
  Ok (Pandas.merge_left data mempool_size_data)).

Definition add_blockchain_data
    (data : ref) (timespan : string) (start : option string) : M ref :=
  let hash_rate_data := get_hash_rate_over_time api timespan start in
  let avg_block_size_data := get_avg_block_size api timespan start in
  let network_difficulty_data := get_network_difficulty api timespan start in
  let miners_revenue_data := get_miners_revenue api timespan start in
  let mempool_size_data := get_mempool_size api timespan start in
  (* data.index = data.index.date: the caller's object gets the new index *)
  df ← deref data;
  dates ← lift (Pandas.index_date (index df));
  df ← lift (Pandas.set_index dates df);
  assign data df;;
  (* each pd.merge yields a new table; [data] is rebound to it *)
  merged ← lift (merge_blockchain_data df hash_rate_data avg_block_size_data
                   network_difficulty_data miners_revenue_data
                   mempool_size_data);
  alloc (clean merged).

Definition add_all_technical_indicators (data : ref) : M ref :=
  close ← getitem_at data "Close";
  let '(upper_bb, middle_bb, lower_bb) := calculate_bollinger_bands ta close in
  setitem_at data "upper_bb" upper_bb;;
  setitem_at data "middle_bb" middle_bb;;
  setitem_at data "lower_bb" lower_bb;;
  df ← deref data;
  let '(slowk, slowd) := calculate_stochastic_oscillator ta df in
  setitem_at data "slowk" slowk;;
  setitem_at data "slowd" slowd;;
  close ← getitem_at data "Close";
  let '(macd, macdsignal, macdhist) := calculate_macd ta close in
  setitem_at data "macd" macd;;
  setitem_at data "macdsignal" macdsignal;;
  setitem_at data "macdhist" macdhist;;
  close ← getitem_at data "Close";
  setitem_at data "rsi" (calculate_rsi ta close);;
  close ← getitem_at data "Close";
  setitem_at data "sma" (calculate_sma ta close);;
  close ← getitem_at data "Close";
  setitem_at data "ema" (calculate_ema ta close);;
  df ← deref data;
  setitem_at data "atr" (calculate_atr ta df);;
  close ← getitem_at data "Close";
  setitem_at data "macd_hist" (calculate_macd_histogram ta close);;
  df ← deref data;
  setitem_at data "obv" (calculate_obv ta df);;
  df ← deref data;
  setitem_at data "cci" (calculate_cci ta df);;
  clean_data data.

(** Lines 150-156: the per-window means become the column [lstm_feature],
    indexed by [index[sequence_length - 1 : -1]], and are concatenated to
    the table. *)
Definition attach_features
    (df : DataFrame) (sequence_length : Z) (features_mean : list cell)
  : result DataFrame :=
  let features_df := Pandas.DataFrame_of_column "lstm_feature" features_mean in
  rbind (Pandas.set_index
           (Pandas.slice (sequence_length - 1) (-1) (index df)) features_df)
        (fun features_df => Pandas.concat_axis1 df features_df).

Definition extract_lstm_features (df : ref) (sequence_length : Z) : M ref :=
  d ← deref df;
  X ← lift (create_sequences lstm d sequence_length);
  let m := build_lstm_model lstm (sequence_length, ncols d) in
  run_epochs 10;;
  let m := train_model lstm m X 10 in
  let features := predict lstm m X in
  let features_mean := map mean_all features in
  out ← lift (attach_features d sequence_length features_mean);
  alloc out.

End FeatureEngineering.

(** Modelled from the spec: [create_sequences] of
  [src/features/extraction/lstm.py], which is not part of the sources at
  hand. A table of [N] rows and a window length [L < N] give [N - L] windows,
  window [i] covering rows [[i, i + L)], in chronological order; a window
  length [L >= N] is rejected with a configuration error. *)
Definition create_sequences_spec (df : DataFrame) (L : Z) : result (list window) :=
  let N := Z.of_nat (nrows df) in
  if (N <=? L)%Z then Raise ConfigurationError
  else Ok (map (fun i => (take (Z.to_nat L) (drop i (rows df))).*2)
               (seq 0 (Z.to_nat (N - L)))).

(** ** [src/data/data_controller.py] *)

(** The names bound at module level once [feature_engineering.py] is loaded:
  what it imports, then what it defines. *)
Definition feature_engineering_names : list string :=
  [ "pd";
    "get_hash_rate_over_time"; "get_avg_block_size"; "get_network_difficulty";
    "get_miners_revenue"; "get_mempool_size";
    "calculate_bollinger_bands"; "calculate_stochastic_oscillator";
    "calculate_macd"; "calculate_rsi"; "calculate_sma"; "calculate_ema";
    "calculate_atr"; "calculate_macd_histogram"; "calculate_obv";
    "calculate_cci";
    "create_sequences"; "build_lstm_model"; "train_model";
    "clean_data";
    "add_blockchain_data"; "add_all_technical_indicators";
    "extract_lstm_features" ].

(** [from module import n1, n2, ...]: the first name the module does not
  bind raises [ImportError]. *)
Fixpoint from_import (module_names wanted : list string) : result unit :=
  match wanted with
  | [] => Ok tt
  | n :: wanted =>
      if bool_decide (n ∈ module_names)
      then from_import module_names wanted
      else Raise (ImportError n)
  end.

Section DataController.
Context (api : blockchain_api) (ta : ta_library).
(** [src/api/yfinance.py] and [sklearn.model_selection]. *)
Context (fetch_bitcoin_data : string -> string -> result DataFrame).
Context (train_test_split :
           DataFrame -> list cell ->
           DataFrame * DataFrame * list cell * list cell).
(** Whatever the name [extract_features] would denote in [main]. *)
Context {features : Type}.
Context (extract_features :
           ref -> Z -> DataFrame -> list cell -> M features).

(** Line 37: [df["target"] = (df["Close"].shift(-1) > df["Close"]).astype(int)]. *)
Definition add_target (df : ref) : M unit :=
  close_next ← getitem_at df "Close";
  close ← getitem_at df "Close";
  setitem_at df "target"
    (Pandas.astype_int (Pandas.series_gt (Pandas.shift (-1) close_next) close)).

(** The import statements run when the module is loaded, before [main] can
    be called. *)
Definition data_controller_imports : result unit :=
  from_import feature_engineering_names
    ["add_all_technical_indicators"; "add_blockchain_data"; "extract_features"].

Definition main (start_date end_date : string) : M features :=
  lift data_controller_imports;;
  fetched ← lift (fetch_bitcoin_data start_date end_date);
  df ← alloc fetched;
  add_target df;;
  df ← add_all_technical_indicators ta df;
  df ← add_blockchain_data api df "3years" (Some start_date);
  df ← clean_data df;
  d ← deref df;
  X ← lift (Pandas.drop_column "target" d);
  y ← lift (Pandas.getitem "target" d);
  let '(X_train, X_test, y_train, y_test) := train_test_split X y in
  extract_features df 30 X_train y_train.

End DataController.


(** ** Reading a left join *)

Definition keys (df : DataFrame) : list (Z + nat) := join_key <$> index df.

(** What a left join appends to a left row of key [k]: the cells of a row of
    [right] with that key, or one NaN per column of [right] when no row of
    [right] has the key. *)
Inductive joined (right : DataFrame) (k : label) : list cell -> Prop :=
  | joined_match r :
      r ∈ rows right -> join_key r.1 = join_key k -> joined right k r.2
  | joined_absent :
      join_key k ∉ keys right ->
      joined right k (replicate (ncols right) None).

(** Sequential left joins of a list of auxiliary tables. *)
Definition merge_all (data : DataFrame) (aux : list DataFrame) : DataFrame :=
  foldl Pandas.merge_left data aux.

(** The values of the column at position [j]. *)
Definition column_at (j : nat) (df : DataFrame) : list cell :=
  map (fun r => Pandas.cell_at j r.2) (rows df).

Definition count_defined (col : list cell) : nat :=
  length (filter (fun c => is_defined c) col).

Definition count_undefined (col : list cell) : nat :=
  length (filter (fun c => negb (is_defined c)) col).

(** What a left join appends to a left row of key [k] when the keys of
    [right] are distinct: the cells of the one matching row, or NaN. *)
Definition joined_cells (right : DataFrame) (k : label) : list cell :=
  match Pandas.matches k right with
  | r :: _ => r.2
  | [] => replicate (ncols right) None
  end.

(** The calendar days on which a table has samples. *)
Definition sampled_days (df : DataFrame) : list Z :=
  map (fun l => day_of (Pandas.timestamp_of l)) (index df).

(** ** Reading an in-place update *)

(** The column names [add_all_technical_indicators] assigns. *)
Definition indicator_columns : list string :=
  [ "upper_bb"; "middle_bb"; "lower_bb"; "slowk"; "slowd";
    "macd"; "macdsignal"; "macdhist"; "rsi"; "sma"; "ema"; "atr";
    "macd_hist"; "obv"; "cci" ].

(** [d'] is [d] with columns assigned: the same index, and every column name
    of [d] still there. *)
Definition extends (d d' : DataFrame) : Prop :=
  index d' = index d /\ columns d ⊆ columns d'.

(** [w'] is [w] with the object behind [data] replaced by [d']. *)
Definition updated_at (data : ref) (d' : DataFrame) (w w' : world) : Prop :=
  w' = mkWorld (<[data:=d']> (heap w)) (epochs_run w).

(** [d'] agrees with [d] on every column whose name is not in [assigned],
    and is well formed when [d] is. *)
Definition same_outside (assigned : list string) (d d' : DataFrame) : Prop :=
  wf d ->
  wf d' /\
  forall c, c ∉ assigned -> Pandas.getitem c d' = Pandas.getitem c d.

(** The state reached from a heap [h] and an epoch count [e] by assigning
    columns to the table [d] behind [data]: the table is now [d'], which
    extends [d], has the columns [assigned] and agrees with [d] on the
    others. *)
Definition assigning (data : ref) (h : list DataFrame) (e : nat)
    (d : DataFrame) (assigned : list string) (d' : DataFrame) (w : world)
  : Prop :=
  w = mkWorld (<[data:=d']> h) e /\ extends d d' /\
  Forall (fun c => c ∈ columns d') assigned /\
  same_outside assigned d d'.

(** ** The sequence model *)

(** The library of the sequence model with the windower of the
    specification. *)
Definition spec_lstm (model : Type) (build : Z * nat -> model)
    (train : model -> list window -> nat -> model)
    (predict : model -> list window -> list window) : lstm_library := {|
  create_sequences := create_sequences_spec;
  build_lstm_model := build;
  train_model := train;
  predict := predict
|}.

(** The per-window means [extract_lstm_features] computes from a table. *)
Definition features_mean_of (lstm : lstm_library) (d : DataFrame) (L : Z)
    (X : list window) : list cell :=
  map mean_all
      (predict lstm
         (train_model lstm (build_lstm_model lstm (L, ncols d)) X 10) X).

(** The value of the column [lstm_feature] at table row [r], for a table of
    [N] rows and a window length [L]: the mean of window [r - (L - 1)] on the
    rows [L - 1 .. N - 2], undefined on the other rows. *)
Definition window_feature (L : Z) (N : nat) (features_mean : list cell)
    (r : nat) : cell :=
  if bool_decide (Z.to_nat (L - 1) <= r < N - 1)
  then default None (features_mean !! (r - Z.to_nat (L - 1)))
  else None.

(** The state reached from a heap [h] and an epoch count [e] by assigning,
    in this order, the new columns [added] to the table [d] behind [data]. *)
Definition appending (data : ref) (h : list DataFrame) (e : nat)
    (d : DataFrame) (added : list string) (d' : DataFrame) (w : world)
  : Prop :=
  w = mkWorld (<[data:=d']> h) e /\ columns d' = columns d ++ added.

(** The number of labels of [index[L - 1 : -1]] on an index of [N] labels. *)
Definition window_labels (L : Z) (N : nat) : nat :=
  if (1 <=? L)%Z then Z.to_nat (Z.of_nat N - L)
  else Z.to_nat (Z.min (Z.of_nat N - 1) (- L)).

(** Indicators that return one value per row of what they are given. *)
Definition aligned (ta : ta_library) : Prop :=
  (forall c, length (calculate_bollinger_bands ta c).1.1 = length c /\
             length (calculate_bollinger_bands ta c).1.2 = length c /\
             length (calculate_bollinger_bands ta c).2 = length c) /\
  (forall df, length (calculate_stochastic_oscillator ta df).1 = nrows df /\
              length (calculate_stochastic_oscillator ta df).2 = nrows df) /\
  (forall c, length (calculate_macd ta c).1.1 = length c /\
             length (calculate_macd ta c).1.2 = length c /\
             length (calculate_macd ta c).2 = length c) /\
  (forall c, length (calculate_rsi ta c) = length c) /\
  (forall c, length (calculate_sma ta c) = length c) /\
  (forall c, length (calculate_ema ta c) = length c) /\
  (forall df, length (calculate_atr ta df) = nrows df) /\
  (forall c, length (calculate_macd_histogram ta c) = length c) /\
  (forall df, length (calculate_obv ta df) = nrows df) /\
  (forall df, length (calculate_cci ta df) = nrows df).

(** The table behind [data] is well formed, has [N] rows and the closes
    [close]. *)
Definition holds_close (data : ref) (N : nat) (close : list cell) (w : world)
  : Prop :=
  exists d, heap w !! data = Some d /\ wf d /\ nrows d = N /\
            Pandas.getitem "Close" d = Ok close.

(** ** Joins on repeated keys *)

(** What a left join can append to a left row of key [k]: the cells of each
    row of [right] with that key, in the order of [right], or one row of NaN
    when there is none. *)
Definition blocks (right : DataFrame) (k : label) : list (list cell) :=
  match Pandas.matches k right with
  | [] => [replicate (ncols right) None]
  | ms => ms.*2
  end.

(** The rows a sequence of left joins makes of a left row of key [k]: one
    block per auxiliary table, the first table varying slowest. *)
Fixpoint choices (auxs : list DataFrame) (k : label) : list (list (list cell)) :=
  match auxs with
  | [] => [[]]
  | aux :: auxs => blocks aux k ≫= (fun b => cons b <$> choices auxs k)
  end.

(** The auxiliary tables that have the key [k] on more than one row. *)
Definition repeating (k : label) (auxs : list DataFrame) : list DataFrame :=
  filter (fun aux => 2 <= length (Pandas.matches k aux)) auxs.

(** The name/cell pairs of the blocks [bs] chosen in [auxs]. *)
Definition named (auxs : list DataFrame) (bs : list (list cell))
  : list (string * cell) :=
  zip (concat (columns <$> auxs)) (concat bs).

(** Two choices of blocks, in [auxs'] and in [auxs], that carry the same
    name/cell pairs, with one cell per column name in each. *)
Definition same_named (auxs' auxs : list DataFrame)
    (bs' bs : list (list cell)) : Prop :=
  length (concat bs') = length (concat (columns <$> auxs')) /\
  length (concat bs) = length (concat (columns <$> auxs)) /\
  named auxs' bs' ≡ₚ named auxs bs.
(** ** Concrete tables and collaborators used in the examples *)

(** The closes of Example 4 of the specification, as a table held at
    reference [0]. *)
Definition closes_table : DataFrame :=
  mkDF ["Close"]
    [ (Timestamp 0, [Some 10%Q]);
      (Timestamp 86400, [Some 12%Q]);
      (Timestamp 172800, [Some 11%Q]) ].

Definition closes_world : world := mkWorld [closes_table] 0.

(** The column [c] of the table behind [df] once [m] has run. *)
Definition column_after {A} (m : M A) (df : ref) (c : string) (w : world)
  : result (list cell) :=
  match m w with
  | (Ok _, w') =>
      match heap w' !! df with
      | Some d => Pandas.getitem c d
      | None => Raise TypeError
      end
  | (Raise e, _) => Raise e
  end.

(** Example 2 of the specification: a primary series of 100 daily rows whose
    index has been turned into dates, and an auxiliary series covering three
    of its dates. *)
Definition primary_100 : DataFrame :=
  mkDF ["Close"]
    (map (fun k => (Date (Z.of_nat k), [Some (inject_Z (Z.of_nat (100 + k)))]))
         (seq 0 100)).

Definition hash_rate_3 : DataFrame :=
  mkDF ["HashRate"]
    [ (Date 10, [Some 1%Q]); (Date 11, [Some 2%Q]); (Date 50, [Some 3%Q]) ].

(** Four more auxiliary series over the same three dates, the mempool one
    sampled twice a day. *)
Definition avg_block_size_3 : DataFrame :=
  mkDF ["AvgBlockSize"]
    [ (Date 10, [Some 4%Q]); (Date 11, [Some 5%Q]); (Date 50, [Some 6%Q]) ].

Definition network_difficulty_3 : DataFrame :=
  mkDF ["NetworkDifficulty"]
    [ (Date 10, [Some 7%Q]); (Date 11, [Some 8%Q]); (Date 50, [Some 9%Q]) ].

Definition miners_revenue_3 : DataFrame :=
  mkDF ["MinersRevenue"]
    [ (Date 10, [Some 1%Q]); (Date 11, [Some 1%Q]); (Date 50, [Some 2%Q]) ].

Definition mempool_size_3 : DataFrame :=
  mkDF ["MempoolSize"]
    [ (Timestamp 864000, [Some 2%Q]); (Timestamp 907200, [Some 4%Q]);
      (Timestamp 950400, [Some 6%Q]); (Timestamp 993600, [Some 7%Q]);
      (Timestamp 1036800, [Some 5%Q]); (Timestamp 1080000, [Some 9%Q]) ].

(** The table the five joins produce on Example 2. *)
Definition merged_100 : DataFrame :=
  match
    merge_blockchain_data primary_100 hash_rate_3 avg_block_size_3
      network_difficulty_3 miners_revenue_3 mempool_size_3
  with
  | Ok t => t
  | Raise _ => mkDF [] []
  end.

(** A one-row primary table, two auxiliary series with a repeated date, and
    two auxiliary series sharing a column name. *)
Definition one_row : DataFrame := mkDF ["Close"] [(Date 0, [Some 10%Q])].

Definition twice_a : DataFrame :=
  mkDF ["A"] [(Date 0, [Some 1%Q]); (Date 0, [Some 2%Q])].

Definition twice_b : DataFrame :=
  mkDF ["B"] [(Date 0, [Some 3%Q]); (Date 0, [Some 4%Q])].

Definition value_a : DataFrame := mkDF ["value"] [(Date 0, [Some 1%Q])].

Definition value_b : DataFrame := mkDF ["value"] [(Date 0, [Some 2%Q])].

(** Example 5 of the specification: the mempool size sampled every hour for
    three days, the sample of hour [k] being [k]. *)
Definition hourly_3_days : DataFrame :=
  mkDF ["MempoolSize"]
    (map (fun k => (Timestamp (3600 * Z.of_nat k), [Some (inject_Z (Z.of_nat k))]))
         (seq 0 72)).

(** Indicators that all return the [Close] column, and fetches that return
    the auxiliary series above whatever the timespan. *)
Definition close_of (df : DataFrame) : list cell :=
  match Pandas.getitem "Close" df with
  | Ok c => c
  | Raise _ => []
  end.

Definition ta_close : ta_library := {|
  calculate_bollinger_bands c := (c, c, c);
  calculate_stochastic_oscillator df := (close_of df, close_of df);
  calculate_macd c := (c, c, c);
  calculate_rsi c := c;
  calculate_sma c := c;
  calculate_ema c := c;
  calculate_atr df := close_of df;
  calculate_macd_histogram c := c;
  calculate_obv df := close_of df;
  calculate_cci df := close_of df
|}.

Definition api_3 : blockchain_api := {|
  get_hash_rate_over_time _ _ := hash_rate_3;
  get_avg_block_size _ _ := avg_block_size_3;
  get_network_difficulty _ _ := network_difficulty_3;
  get_miners_revenue _ _ := miners_revenue_3;
  get_mempool_size _ _ := mempool_size_3
|}.

(** A primary series of 100 daily rows as fetched, indexed by timestamps at
    noon. *)
Definition fetched_100 : DataFrame :=
  mkDF ["Close"]
    (map (fun k => (Timestamp (86400 * Z.of_nat k + 43200),
                    [Some (inject_Z (Z.of_nat (100 + k)))]))
         (seq 0 100)).

Definition fetched_world : world := mkWorld [fetched_100] 0.

(** The states the two stages leave behind on these inputs. *)
Definition indicators_world : world :=
  (add_all_technical_indicators ta_close 0 closes_world).2.

Definition blockchain_world : world :=
  (add_blockchain_data api_3 0 "1year" None fetched_world).2.

(** A sequence model that reconstructs its input exactly, over the windower
    of the specification; and one whose windower yields no window at all. *)
Definition lstm_id : lstm_library :=
  spec_lstm unit (fun _ => tt) (fun m _ _ => m) (fun _ X => X).

Definition lstm_none : lstm_library := {|
  model := unit;
  create_sequences _ _ := Ok [];
  build_lstm_model _ := tt;
  train_model m _ _ := m;
  predict _ X := X
|}.

(** A table in which a label is repeated. *)
Definition repeated_label_table : DataFrame :=
  mkDF ["Close"]
    [ (Date 0, [Some 1%Q]); (Date 0, [Some 2%Q]); (Date 1, [Some 3%Q]) ].

(** The table [extract_lstm_features] returns on the closes of Example 4
    with windows of two rows. *)
Definition closes_with_feature : DataFrame :=
  mkDF ["Close"; "lstm_feature"]
    [ (Timestamp 0, [Some 10%Q; None]);
      (Timestamp 86400, [Some 12%Q; Some 11%Q]);
      (Timestamp 172800, [Some 11%Q; None]) ].

(** A world whose only table has no [Close] column. *)
Definition hash_rate_world : world := mkWorld [hash_rate_3] 0.

(** Fetches whose mempool series is indexed by dates, not by timestamps. *)
Definition api_dated_mempool : blockchain_api := {|
  get_hash_rate_over_time _ _ := hash_rate_3;
  get_avg_block_size _ _ := avg_block_size_3;
  get_network_difficulty _ _ := network_difficulty_3;
  get_miners_revenue _ _ := miners_revenue_3;
  get_mempool_size _ _ := miners_revenue_3
|}.

(** Indicators that all return the first column of what they are given, the
    closes themselves for those computed from the closes. *)
Definition ta_first : ta_library := {|
  calculate_bollinger_bands c := (c, c, c);
  calculate_stochastic_oscillator df := (column_at 0 df, column_at 0 df);
  calculate_macd c := (c, c, c);
  calculate_rsi c := c;
  calculate_sma c := c;
  calculate_ema c := c;
  calculate_atr df := column_at 0 df;
  calculate_macd_histogram c := c;
  calculate_obv df := column_at 0 df;
  calculate_cci df := column_at 0 df
|}.

(** The row of Example 2's merged table dated day 10. *)
Definition merged_row_10 : label * list cell :=
  (Date 10,
   [Some (inject_Z 110); Some 1%Q; Some 4%Q; Some 7%Q; Some 1%Q; Some 3%Q]).

(** ** Column access *)

Section Columns.
Import Pandas.

Lemma col_index_Some c cols j :
  col_index c cols = Some j -> cols !! j = Some c.
Proof.
  unfold col_index. destruct (list_find _ cols) as [[i x]|] eqn:E; [|done].
  intros [= <-]. apply list_find_Some in E as (H & -> & _). done.
Qed.

Lemma col_index_None c cols :
  col_index c cols = None <-> c ∉ cols.
Proof.
  unfold col_index. rewrite fmap_None, list_find_None, Forall_forall.
  split.
  - intros H Hc. exact (H c Hc eq_refl).
  - intros H x Hx ->. exact (H Hx).
Qed.

Lemma col_index_app_new c cols :
  c ∉ cols -> col_index c (cols ++ [c]) = Some (length cols).
Proof.
  intros H. unfold col_index.
  rewrite list_find_app_r by (apply list_find_None, Forall_forall; intros x Hx ->; done).
  simpl. rewrite decide_True by done. done.
Qed.

Lemma map_zip_with_set (j : nat) (rs : list (label * list cell)) vals :
  Forall (fun r => j < length r.2) rs -> length vals = length rs ->
  map (fun r => cell_at j r.2)
      (zip_with (fun r v => (r.1, <[j:=v]> r.2)) rs vals) = vals.
Proof.
  intros H. revert vals.
  induction H as [|r rs Hr _ IH]; intros [|v vals] Hlen; simpl in *;
    try done.
  f_equal; [|apply IH; lia].
  unfold cell_at. by rewrite list_lookup_insert_eq.
Qed.

Lemma map_zip_with_snoc (n : nat) (rs : list (label * list cell)) vals :
  Forall (fun r => length r.2 = n) rs -> length vals = length rs ->
  map (fun r => cell_at n r.2)
      (zip_with (fun r v => (r.1, r.2 ++ [v])) rs vals) = vals.
Proof.
  intros H. revert vals.
  induction H as [|r rs Hr _ IH]; intros [|v vals] Hlen; simpl in *;
    try done.
  f_equal; [|apply IH; lia].
  unfold cell_at. rewrite lookup_app_r by lia.
  by replace (n - length r.2) with 0 by lia.
Qed.

Lemma Forall_zip_with_l {A B C} (P : A -> Prop) (Q : C -> Prop)
    (f : A -> B -> C) l k :
  Forall P l -> (forall x y, P x -> Q (f x y)) -> Forall Q (zip_with f l k).
Proof.
  intros H Hf. revert k. induction H; intros [|y k]; simpl; auto.
Qed.

Lemma fst_zip_with_l {A B C} (f : A * C -> B -> C) (l : list (A * C)) k :
  length k = length l ->
  (zip_with (fun r v => (r.1, f r v)) l k).*1 = l.*1.
Proof.
  revert k. induction l as [|r l IH]; intros [|v k] ?; simplify_eq/=; [done|].
  f_equal. by apply IH.
Qed.

(** Reading back a column that was just assigned. *)
Lemma getitem_setitem c vals df :
  wf df -> length vals = nrows df ->
  exists df', setitem c vals df = Ok df' /\ getitem c df' = Ok vals /\
              wf df' /\ index df' = index df /\ nrows df' = nrows df.
Proof.
  intros Hwf Hlen. unfold setitem. rewrite bool_decide_eq_true_2 by done.
  unfold nrows in Hlen.
  destruct (col_index c (columns df)) as [j|] eqn:E.
  - eexists; split; [done|]. unfold getitem; simpl. rewrite E.
    pose proof (col_index_Some _ _ _ E) as Hj. apply lookup_lt_Some in Hj.
    repeat split.
    + f_equal. apply map_zip_with_set; [|done].
      eapply Forall_impl; [exact Hwf|]. intros r Hr; simpl in *.
      unfold ncols in Hr. lia.
    + eapply Forall_zip_with_l; [exact Hwf|]. intros r v Hr; simpl in *.
      by rewrite length_insert.
    + apply (fst_zip_with_l (fun r v => <[j:=v]> r.2)); done.
    + unfold nrows; simpl. rewrite length_zip_with. lia.
  - eexists; split; [done|]. unfold getitem; simpl.
    apply col_index_None in E. rewrite col_index_app_new by done.
    repeat split.
    + f_equal. by apply map_zip_with_snoc.
    + eapply Forall_zip_with_l; [exact Hwf|]. intros r v Hr; simpl in *.
      unfold ncols in *; simpl. rewrite !length_app; simpl. lia.
    + apply (fst_zip_with_l (fun r v => r.2 ++ [v])); done.
    + unfold nrows; simpl. rewrite length_zip_with. lia.
Qed.

Lemma getitem_length c df col :
  getitem c df = Ok col -> length col = nrows df.
Proof.
  unfold getitem. destruct (col_index _ _); [|done].
  intros [= <-]. by rewrite length_map.
Qed.

End Columns.

(** ** Running effectful code *)

Lemma run_bind {A B} (m : M A) (k : A -> M B) w :
  (m ≫= k) w
  = match m w with
    | (Ok a, w') => k a w'
    | (Raise e, w') => (Raise e, w')
    end.
Proof. reflexivity. Qed.

Lemma run_ret {A} (a : A) w : mret (M := M) a w = (Ok a, w).
Proof. reflexivity. Qed.

Lemma run_deref r w d : heap w !! r = Some d -> deref r w = (Ok d, w).
Proof. intros H. unfold deref. by rewrite H. Qed.

Lemma run_getitem_at r c w d :
  heap w !! r = Some d -> getitem_at r c w = (Pandas.getitem c d, w).
Proof.
  intros H. unfold getitem_at. rewrite run_bind, (run_deref _ _ _ H).
  unfold lift. by destruct (Pandas.getitem c d).
Qed.

Lemma run_setitem_at r c vals w d d' :
  heap w !! r = Some d -> Pandas.setitem c vals d = Ok d' ->
  setitem_at r c vals w
  = (Ok tt, mkWorld (<[r:=d']> (heap w)) (epochs_run w)).
Proof.
  intros H Hset. unfold setitem_at.
  rewrite run_bind, (run_deref _ _ _ H), run_bind. unfold lift.
  by rewrite Hset.
Qed.

Lemma heap_lookup_assigned (h : list DataFrame) r d d' :
  h !! r = Some d -> <[r:=d']> h !! r = Some d'.
Proof. intros H. apply list_lookup_insert_eq. by eapply lookup_lt_Some. Qed.

(** ** The label column *)

Section Label.
Import Pandas.

Lemma shift_back_eq (s : list cell) :
  shift (-1) s = drop 1 s ++ replicate (min 1 (length s)) None.
Proof. reflexivity. Qed.

Lemma shift_back_length (s : list cell) : length (shift (-1) s) = length s.
Proof.
  rewrite shift_back_eq, length_app, length_drop, length_replicate. lia.
Qed.

Lemma shift_back_lookup (s : list cell) i :
  i < length s -> shift (-1) s !! i = Some (default None (s !! S i)).
Proof.
  intros Hi. rewrite shift_back_eq.
  destruct (decide (S i < length s)) as [Hlt|Hge].
  - rewrite lookup_app_l by (rewrite length_drop; lia).
    rewrite lookup_drop. simpl.
    destruct (lookup_lt_is_Some_2 s (S i) Hlt) as [x Hx]. by rewrite Hx.
  - rewrite lookup_app_r by (rewrite length_drop; lia).
    rewrite length_drop.
    replace (i - (length s - 1)) with 0 by lia.
    replace (min 1 (length s)) with 1 by lia. simpl.
    by rewrite lookup_ge_None_2 by lia.
Qed.

Lemma cell_gt_lt (x y : Q) :
  cell_gt (Some y) (Some x) = if Qlt_le_dec x y then true else false.
Proof.
  simpl. destruct (Qlt_le_dec x y) as [Hlt|Hle].
  - apply negb_true_iff. apply not_true_is_false. intros H.
    apply Qle_bool_iff in H. by apply Qlt_not_le in Hlt.
  - apply negb_false_iff. by apply Qle_bool_iff.
Qed.

(** The label of a row from the closes: the comparison of the next close,
    NaN after the last row, with the close of the row. *)
Lemma target_lookup (close : list cell) i x :
  close !! i = Some x ->
  astype_int (series_gt (shift (-1) close) close) !! i
  = Some (Some (if cell_gt (default None (close !! S i)) x then 1%Q else 0%Q)).
Proof.
  intros Hx. unfold astype_int, series_gt.
  rewrite list_lookup_fmap, lookup_zip_with.
  rewrite shift_back_lookup by (by eapply lookup_lt_Some).
  simpl. by rewrite Hx.
Qed.

(** Running [add_target] on a table with a [Close] column. *)
Lemma add_target_run df w d close :
  heap w !! df = Some d -> wf d -> getitem "Close" d = Ok close ->
  exists d',
    add_target df w = (Ok tt, mkWorld (<[df:=d']> (heap w)) (epochs_run w)) /\
    getitem "target" d'
    = Ok (astype_int (series_gt (shift (-1) close) close)) /\
    wf d' /\ index d' = index d.
Proof.
  intros Hd Hwf Hclose.
  set (target := astype_int (series_gt (shift (-1) close) close)).
  assert (Hlen : length target = nrows d).
  { unfold target, astype_int, series_gt.
    rewrite length_map, length_zip_with, shift_back_length.
    rewrite (getitem_length _ _ _ Hclose). lia. }
  destruct (getitem_setitem "target" target d Hwf Hlen)
    as (d' & Hset & Hget & Hwf' & Hidx & _).
  exists d'. split; [|done].
  unfold add_target.
  rewrite run_bind, (run_getitem_at _ _ _ _ Hd), Hclose.
  rewrite run_bind, (run_getitem_at _ _ _ _ Hd), Hclose.
  by apply run_setitem_at with d.
Qed.

End Label.

(** C1, as stated, fails on Example 4: for the closes [10, 12, 11] the label
    column computed by line 37 of [main] is [1, 0, 0]; the final row is
    labelled [0], it is not undefined. *)
Lemma target_final_row_not_undefined :
  column_after (add_target 0) 0 "target" closes_world
  = Ok [Some 1%Q; Some 0%Q; Some 0%Q] /\
  column_after (add_target 0) 0 "target" closes_world
  <> Ok [Some 1%Q; Some 0%Q; None].
Proof. split; [reflexivity | discriminate]. Qed.

(** C1 (amended): after line 37 of [main] the table has a [target] column with
    one label per row; the label of a row is 1 if the next row's close exceeds
    the row's close and 0 otherwise, it is 0 when either close is NaN, and the
    final row, which has no successor, is labelled 0. *)
Theorem target_label_rows df w d close :
  heap w !! df = Some d -> wf d -> Pandas.getitem "Close" d = Ok close ->
  exists target,
    column_after (add_target df) df "target" w = Ok target /\
    length target = length close /\
    (forall i x y,
        close !! i = Some (Some x) -> close !! S i = Some (Some y) ->
        target !! i = Some (Some (if Qlt_le_dec x y then 1%Q else 0%Q))) /\
    (forall i,
        close !! i = Some None \/ close !! S i = Some None ->
        i < length close ->
        target !! i = Some (Some 0%Q)) /\
    (forall i, S i = length close -> target !! i = Some (Some 0%Q)).
Proof.
  intros Hd Hwf Hclose.
  destruct (add_target_run df w d close Hd Hwf Hclose)
    as (d' & Hrun & Hget & _ & _).
  exists (Pandas.astype_int (Pandas.series_gt (Pandas.shift (-1) close) close)).
  split; [|split; [|split; [|split]]].
  - unfold column_after. rewrite Hrun; simpl.
    by rewrite (heap_lookup_assigned _ _ _ _ Hd).
  - unfold Pandas.astype_int, Pandas.series_gt.
    rewrite length_map, length_zip_with, shift_back_length. lia.
  - intros i x y Hx Hy. rewrite (target_lookup _ _ _ Hx), Hy.
    cbn [default from_option id]. rewrite cell_gt_lt.
    by destruct (Qlt_le_dec x y).
  - intros i [Hx|Hy] Hi.
    + rewrite (target_lookup _ _ _ Hx).
      by destruct (default None (close !! S i)).
    + destruct (lookup_lt_is_Some_2 close i Hi) as [x Hx].
      rewrite (target_lookup _ _ _ Hx), Hy. done.
  - intros i Hi.
    destruct (lookup_lt_is_Some_2 close i ltac:(lia)) as [x Hx].
    rewrite (target_lookup _ _ _ Hx).
    by rewrite lookup_ge_None_2 by lia.
Qed.

Lemma target_label_rows_witness :
  exists target,
    column_after (add_target 0) 0 "target" closes_world = Ok target /\
    length target = 3 /\
    (forall i x y,
        [Some 10%Q; Some 12%Q; Some 11%Q] !! i = Some (Some x) ->
        [Some 10%Q; Some 12%Q; Some 11%Q] !! S i = Some (Some y) ->
        target !! i = Some (Some (if Qlt_le_dec x y then 1%Q else 0%Q))) /\
    (forall i,
        [Some 10%Q; Some 12%Q; Some 11%Q] !! i = Some None \/
        [Some 10%Q; Some 12%Q; Some 11%Q] !! S i = Some None ->
        i < 3 ->
        target !! i = Some (Some 0%Q)) /\
    (forall i, S i = 3 -> target !! i = Some (Some 0%Q)).
Proof.
  apply (target_label_rows 0 closes_world closes_table
           [Some 10%Q; Some 12%Q; Some 11%Q]).
  - reflexivity.
  - repeat constructor.
  - reflexivity.
Defined.

(** ** Cleaning *)

Lemma all_defined_iff (cells : list cell) :
  forallb is_defined cells <-> None ∉ cells.
Proof.
  induction cells as [|c cells IH]; simpl.
  - split; [intros _ H; inversion H | done].
  - rewrite not_elem_of_cons. destruct c as [q|]; simpl.
    + rewrite IH. split; [intros H; split; [done | exact H] | intros [_ H]; exact H].
    + split; [done | intros [H _]; done].
Qed.

Lemma filter_idemp {A} (P : A -> Prop) `{!forall x, Decision (P x)} (l : list A) :
  filter P (filter P l) = filter P l.
Proof.
  induction l as [|x l IH]; [done|].
  rewrite filter_cons. case_decide as Hx; [|done].
  rewrite filter_cons, decide_True by done. by f_equal.
Qed.

(** C6: cleaning a clean table changes nothing; the rows of the cleaned table
    are exactly the rows of the table without an undefined value, in their
    original relative order, under the same columns. *)
Theorem clean_idempotent_order_preserving (t : DataFrame) :
  clean (clean t) = clean t /\
  (forall r, r ∈ rows (clean t) <-> r ∈ rows t /\ None ∉ r.2) /\
  sublist (rows (clean t)) (rows t) /\
  columns (clean t) = columns t.
Proof.
  unfold clean; simpl. split; [|split; [|split]].
  - f_equal. apply filter_idemp.
  - intros r. rewrite list_elem_of_filter, all_defined_iff. tauto.
  - apply sublist_filter.
  - done.
Qed.

(** ** The entry point *)

(** C9: [main] never returns a feature array. The module it imports from binds
    [extract_lstm_features] but not [extract_features], so whatever the
    collaborators are and whatever the date range is, running [main] stops at
    the import with a name-resolution error, the state untouched. *)
Theorem main_fails_resolving_extract_features
    (api : blockchain_api) (ta : ta_library)
    (fetch_bitcoin_data : string -> string -> result DataFrame)
    (train_test_split :
       DataFrame -> list cell -> DataFrame * DataFrame * list cell * list cell)
    (features : Type)
    (extract_features : ref -> Z -> DataFrame -> list cell -> M features)
    (start_date end_date : string) (w : world) :
  ("extract_lstm_features" ∈ feature_engineering_names) /\
  ("extract_features" ∉ feature_engineering_names) /\
  main api ta fetch_bitcoin_data train_test_split extract_features
    start_date end_date w
  = (Raise (ImportError "extract_features"), w).
Proof.
  split; [|split].
  - apply (bool_decide_unpack _). by vm_compute.
  - apply (bool_decide_unpack _). by vm_compute.
  - unfold main. rewrite run_bind. reflexivity.
Qed.

(** ** Left joins *)

Section Merge.
Import Pandas.

Lemma elem_of_keys (right : DataFrame) (k : Z + nat) :
  k ∈ keys right <-> exists r, r ∈ rows right /\ join_key r.1 = k.
Proof.
  unfold keys, index. rewrite <- list_fmap_compose, list_elem_of_fmap.
  split; intros (r & H1 & H2); exists r; simpl in *; auto.
Qed.

Lemma matches_nil (right : DataFrame) (l : label) :
  matches l right = [] <-> join_key l ∉ keys right.
Proof.
  unfold matches. rewrite elem_of_keys. split.
  - intros H (r & Hr & Hk).
    assert (r ∈ filter (fun r => join_key r.1 = join_key l) (rows right)) as Hin
      by (by apply list_elem_of_filter).
    rewrite H in Hin. by apply elem_of_nil in Hin.
  - intros H. apply elem_of_nil_inv. intros r Hr.
    apply list_elem_of_filter in Hr as [Hk Hr]. apply H. eauto.
Qed.

(** The rows a left row gives rise to. *)
Lemma elem_of_merge_row (right : DataFrame) (l r' : label * list cell) :
  r' ∈ merge_row right l <->
  exists b, joined right l.1 b /\ r' = (l.1, l.2 ++ b).
Proof.
  unfold merge_row. destruct (matches l.1 right) as [|m ms] eqn:E.
  - apply matches_nil in E. rewrite list_elem_of_singleton. split.
    + intros ->. eexists; split; [by apply joined_absent | done].
    + intros (b & Hb & ->). destruct Hb as [r Hr Hk | _]; [|done].
      exfalso. apply E, elem_of_keys. eauto.
  - rewrite list_elem_of_fmap. split.
    + intros (r & -> & Hr). rewrite <- E in Hr.
      apply list_elem_of_filter in Hr as [Hk Hr].
      eexists; split; [by apply joined_match | done].
    + intros (b & Hb & ->). destruct Hb as [r Hr Hk | Habs].
      * exists r. split; [done|]. rewrite <- E. by apply list_elem_of_filter.
      * apply matches_nil in Habs. congruence.
Qed.

Lemma elem_of_merge_left (left right : DataFrame) (r' : label * list cell) :
  r' ∈ rows (merge_left left right) <->
  exists l b, l ∈ rows left /\ joined right l.1 b /\ r' = (l.1, l.2 ++ b).
Proof.
  unfold merge_left; simpl. rewrite list_elem_of_bind. split.
  - intros (l & Hr & Hl). apply elem_of_merge_row in Hr as (b & Hb & ->). eauto.
  - intros (l & b & Hl & Hb & ->). exists l. split; [|done].
    apply elem_of_merge_row. eauto.
Qed.

(** A left join keeps every left row at least once. *)
Lemma merge_left_keeps (left right : DataFrame) (l : label * list cell) :
  l ∈ rows left ->
  exists b, joined right l.1 b /\ (l.1, l.2 ++ b) ∈ rows (merge_left left right).
Proof.
  intros Hl.
  assert (exists r', r' ∈ merge_row right l) as [r' Hr'].
  { unfold merge_row. destruct (matches l.1 right) as [|m ms].
    - eexists. apply list_elem_of_singleton. done.
    - eexists. apply list_elem_of_fmap. exists m. split; [done|]. left. }
  pose proof Hr' as Hr. apply elem_of_merge_row in Hr as (b & Hb & ->).
  exists b. split; [done|]. apply elem_of_merge_left. eauto.
Qed.

Lemma joined_absent_inv (right : DataFrame) (k : label) (b : list cell) :
  joined right k b -> join_key k ∉ keys right ->
  b = replicate (ncols right) None.
Proof.
  intros [r Hr Hk | _] Habs; [|done]. exfalso. apply Habs, elem_of_keys. eauto.
Qed.

End Merge.

Section MergeAll.
Import Pandas.

Lemma merge_all_cons data aux auxs :
  merge_all data (aux :: auxs) = merge_all (merge_left data aux) auxs.
Proof. reflexivity. Qed.

(** The rows of a sequence of left joins: a row of the first table followed by
    what each auxiliary table, in turn, joins to its key. *)
Lemma elem_of_merge_all (auxs : list DataFrame) (data : DataFrame)
    (r' : label * list cell) :
  r' ∈ rows (merge_all data auxs) <->
  exists l bs, l ∈ rows data /\
               Forall2 (fun aux b => joined aux l.1 b) auxs bs /\
               r' = (l.1, l.2 ++ concat bs).
Proof.
  revert data. induction auxs as [|aux auxs IH]; intros data.
  - simpl. split.
    + intros H. exists r', []. destruct r'; simpl. rewrite app_nil_r. auto.
    + intros (l & bs & Hl & Hbs & ->). apply Forall2_nil_inv_l in Hbs as ->.
      simpl. rewrite app_nil_r. by destruct l.
  - rewrite merge_all_cons, IH. split.
    + intros (l' & bs & Hl' & Hbs & ->).
      apply elem_of_merge_left in Hl' as (l & b & Hl & Hb & ->). simpl in *.
      exists l, (b :: bs). split; [done|]. split; [by constructor|].
      simpl. by rewrite app_assoc.
    + intros (l & bs & Hl & Hbs & ->).
      apply Forall2_cons_inv_l in Hbs as (b & bs' & Hb & Hbs & ->).
      exists (l.1, l.2 ++ b), bs'. split; [|split; [done|]].
      * apply elem_of_merge_left. eauto.
      * simpl. by rewrite app_assoc.
Qed.

(** The five joins of [add_blockchain_data] as one sequence. *)
Lemma merge_blockchain_data_all data h a n m mp :
  merge_blockchain_data data h a n m mp
  = rbind (resample_D_mean mp) (fun daily =>
      Ok (merge_all data [h; a; n; m; daily])).
Proof. reflexivity. Qed.

End MergeAll.

(** C3: in the table [add_blockchain_data] merges, before cleaning, every row
    is a row of the primary table, under its own date, followed by what each
    auxiliary series joins to that date: the cells of a row of the series with
    that date, or undefined values, one per column of the series, when the
    series has no row for the date. Every primary row is kept. In Example 2,
    with auxiliary series covering 3 of the 100 primary dates, each merged
    auxiliary column has exactly 3 defined and 97 undefined values. *)
Theorem auxiliary_series_left_joined
    (data h a n m mp merged : DataFrame) :
  merge_blockchain_data data h a n m mp = Ok merged ->
  exists daily,
    Pandas.resample_D_mean mp = Ok daily /\
    (forall r',
        r' ∈ rows merged <->
        exists l bs,
          l ∈ rows data /\
          Forall2 (fun aux b => joined aux l.1 b) [h; a; n; m; daily] bs /\
          r' = (l.1, l.2 ++ concat bs)) /\
    (forall aux k b,
        joined aux k b -> join_key k ∉ keys aux ->
        b = replicate (ncols aux) None) /\
    (forall l, l ∈ rows data -> exists r', r' ∈ rows merged /\ r'.1 = l.1) /\
    (forall t,
        merge_blockchain_data primary_100 hash_rate_3 avg_block_size_3
          network_difficulty_3 miners_revenue_3 mempool_size_3 = Ok t ->
        nrows t = 100 /\
        Forall (fun j => count_defined (column_at j t) = 3 /\
                         count_undefined (column_at j t) = 97)
               [1; 2; 3; 4; 5]).
Proof.
  rewrite merge_blockchain_data_all.
  destruct (Pandas.resample_D_mean mp) as [daily|e] eqn:E; [|done].
  unfold rbind. intros [= <-]. exists daily. split; [done|].
  split; [|split; [|split]].
  - intros r'. apply (elem_of_merge_all [h; a; n; m; daily] data r').
  - intros aux k b. apply joined_absent_inv.
  - intros l Hl.
    assert (forall auxs d (x : label * list cell), x ∈ rows d ->
              exists r', r' ∈ rows (merge_all d auxs) /\ r'.1 = x.1) as Hall.
    { induction auxs as [|aux auxs IH]; intros d x Hd; [by exists x|].
      rewrite merge_all_cons.
      destruct (merge_left_keeps d aux x Hd) as (b & _ & Hin).
      destruct (IH _ _ Hin) as (r' & Hr' & Heq). by exists r'. }
    by apply (Hall [h; a; n; m; daily] data).
  - intros t Ht. vm_compute in Ht. injection Ht as <-.
    split; [reflexivity|]. repeat constructor.
Qed.

Lemma auxiliary_series_left_joined_witness :
  exists daily,
    Pandas.resample_D_mean mempool_size_3 = Ok daily /\
    (forall r',
        r' ∈ rows merged_100 <->
        exists l bs,
          l ∈ rows primary_100 /\
          Forall2 (fun aux b => joined aux l.1 b)
            [hash_rate_3; avg_block_size_3; network_difficulty_3;
             miners_revenue_3; daily] bs /\
          r' = (l.1, l.2 ++ concat bs)) /\
    (forall aux k b,
        joined aux k b -> join_key k ∉ keys aux ->
        b = replicate (ncols aux) None) /\
    (forall l, l ∈ rows primary_100 ->
               exists r', r' ∈ rows merged_100 /\ r'.1 = l.1) /\
    (forall t,
        merge_blockchain_data primary_100 hash_rate_3 avg_block_size_3
          network_difficulty_3 miners_revenue_3 mempool_size_3 = Ok t ->
        nrows t = 100 /\
        Forall (fun j => count_defined (column_at j t) = 3 /\
                         count_undefined (column_at j t) = 97)
               [1; 2; 3; 4; 5]).
Proof.
  apply (auxiliary_series_left_joined primary_100 hash_rate_3 avg_block_size_3
           network_difficulty_3 miners_revenue_3 mempool_size_3 merged_100).
  vm_compute. reflexivity.
Defined.

(** ** Joins on distinct keys *)

Section UniqueKeys.
Import Pandas.

Lemma filter_key_unique {A B} (f : A -> B) `{EqDecision B} (y : B) (l : list A) :
  NoDup (f <$> l) -> length (filter (fun x => f x = y) l) <= 1.
Proof.
  induction l as [|x l IH]; simpl; [lia|].
  rewrite NoDup_cons. intros [Hx Hnd]. rewrite filter_cons.
  case_decide as Hy; [|by apply IH].
  assert (filter (fun x => f x = y) l = []) as ->; [|simpl; lia].
  apply elem_of_nil_inv. intros z Hz.
  apply list_elem_of_filter in Hz as [Hfz Hz].
  apply Hx, list_elem_of_fmap. exists z. split; [congruence | done].
Qed.

Lemma keys_fmap (right : DataFrame) :
  keys right = (fun r => join_key r.1) <$> rows right.
Proof. unfold keys, index. by rewrite <- list_fmap_compose. Qed.

Lemma merge_row_unique (right : DataFrame) (l : label * list cell) :
  NoDup (keys right) ->
  merge_row right l = [(l.1, l.2 ++ joined_cells right l.1)].
Proof.
  intros Hnd. rewrite keys_fmap in Hnd.
  pose proof (filter_key_unique (fun r : label * list cell => join_key r.1)
                (join_key l.1) (rows right) Hnd) as Hlen.
  unfold merge_row, joined_cells, matches in *.
  destruct (filter _ (rows right)) as [|m [|m' ms]]; simpl in *; [done|done|lia].
Qed.

Lemma rows_merge_left_unique (left right : DataFrame) :
  NoDup (keys right) ->
  rows (merge_left left right)
  = map (fun l => (l.1, l.2 ++ joined_cells right l.1)) (rows left).
Proof.
  intros Hnd. unfold merge_left; simpl.
  induction (rows left) as [|l ls IH]; [done|].
  simpl. rewrite merge_row_unique by done. simpl. by f_equal.
Qed.

Lemma columns_merge_left_disjoint (left right : DataFrame) :
  (forall c, c ∈ columns left -> c ∉ columns right) ->
  columns (merge_left left right) = columns left ++ columns right.
Proof.
  intros Hdisj. unfold merge_left, merge_columns; simpl.
  assert (filter (fun c => c ∈ columns right) (columns left) = []) as ->.
  { apply elem_of_nil_inv. intros c Hc.
    apply list_elem_of_filter in Hc as [Hr Hl]. by apply (Hdisj c). }
  assert (forall s (cs : list string), map (suffixed [] s) cs = cs) as Hid.
  { intros s cs. induction cs as [|c cs IH]; [done|]. simpl. rewrite IH.
    unfold suffixed. rewrite bool_decide_eq_false_2; [done|]. apply not_elem_of_nil. }
  by rewrite !Hid.
Qed.

Lemma columns_merge_all_disjoint (auxs : list DataFrame) (data : DataFrame) :
  NoDup (columns data ++ concat (columns <$> auxs)) ->
  columns (merge_all data auxs) = columns data ++ concat (columns <$> auxs).
Proof.
  revert data. induction auxs as [|aux auxs IH]; intros data Hnd.
  - simpl. by rewrite app_nil_r.
  - simpl in Hnd.
    assert (columns (merge_left data aux) = columns data ++ columns aux) as Hcols.
    { apply columns_merge_left_disjoint. intros c Hc Hc'.
      apply NoDup_app in Hnd as (_ & Hnd & _). apply (Hnd c Hc).
      apply elem_of_app. by left. }
    rewrite merge_all_cons, IH; rewrite Hcols.
    + simpl. by rewrite app_assoc.
    + by rewrite <- app_assoc.
Qed.

End UniqueKeys.

(** ** Cells by column name *)

Section ByName.
Import Pandas.

(** Under distinct column names, the cell at the position of a name is the
    cell paired with the name. *)
Lemma cell_by_name (cols : list string) (cells : list cell) c j v :
  NoDup cols -> length cells = length cols -> col_index c cols = Some j ->
  (c, v) ∈ zip cols cells <-> cell_at j cells = v.
Proof.
  intros Hnd Hlen Hj. apply col_index_Some in Hj. unfold cell_at. split.
  - intros Hin. apply list_elem_of_lookup in Hin as [i Hi].
    apply lookup_zip_with_Some in Hi as (c' & v' & [= <- <-] & Hc & Hv).
    assert (i = j) as -> by (by eapply NoDup_lookup). by rewrite Hv.
  - intros Hv.
    destruct (lookup_lt_is_Some_2 cells j) as [v' Hv'].
    { rewrite Hlen. by eapply lookup_lt_Some. }
    rewrite Hv' in Hv; simpl in Hv; subst v'.
    apply list_elem_of_lookup. exists j.
    apply lookup_zip_with_Some. eauto.
Qed.

End ByName.

(** ** Daily resampling *)

Section Resample.
Import Pandas.

Lemma elem_of_day_range (lo hi d : Z) :
  d ∈ day_range lo hi <-> (lo <= d <= hi)%Z.
Proof.
  unfold day_range. rewrite list_elem_of_fmap. split.
  - intros (k & -> & Hk). apply elem_of_seq in Hk. lia.
  - intros Hd. exists (Z.to_nat (d - lo)). split; [lia|].
    apply elem_of_seq. lia.
Qed.

Lemma NoDup_day_range (lo hi : Z) : NoDup (day_range lo hi).
Proof.
  unfold day_range. apply NoDup_fmap_2; [|apply NoDup_seq].
  intros x y ?. lia.
Qed.

Lemma Zmin_list_spec (d : Z) (l : list Z) :
  (Zmin_list d l = d \/ Zmin_list d l ∈ l) /\
  (Zmin_list d l <= d)%Z /\
  Forall (fun x => (Zmin_list d l <= x)%Z) l.
Proof.
  induction l as [|x l (IH1 & IH2 & IH3)]; simpl.
  - split; [by left|]. split; [lia | constructor].
  - split; [|split].
    + destruct (Z.min_spec x (Zmin_list d l)) as [[_ ->]|[_ ->]].
      * right; left.
      * destruct IH1 as [->|?]; [by left | by right; right].
    + lia.
    + constructor; [lia|]. eapply Forall_impl; [exact IH3|]. simpl; lia.
Qed.

Lemma Zmax_list_spec (d : Z) (l : list Z) :
  (Zmax_list d l = d \/ Zmax_list d l ∈ l) /\
  (d <= Zmax_list d l)%Z /\
  Forall (fun x => (x <= Zmax_list d l)%Z) l.
Proof.
  induction l as [|x l (IH1 & IH2 & IH3)]; simpl.
  - split; [by left|]. split; [lia | constructor].
  - split; [|split].
    + destruct (Z.max_spec x (Zmax_list d l)) as [[_ ->]|[_ ->]].
      * destruct IH1 as [->|?]; [by left | by right; right].
      * right; left.
    + lia.
    + constructor; [lia|]. eapply Forall_impl; [exact IH3|]. simpl; lia.
Qed.

(** The shape of a successful resampling: the same columns, and one row per
    calendar day from the first to the last sampled day, labelled by the
    day's midnight and holding the means of the day's samples. *)
Lemma resample_D_mean_rows (df daily : DataFrame) :
  resample_D_mean df = Ok daily ->
  columns daily = columns df /\
  exists days,
    NoDup days /\
    (forall d, d ∈ days <->
               exists d1 d2, d1 ∈ sampled_days df /\ d2 ∈ sampled_days df /\
                             (d1 <= d <= d2)%Z) /\
    rows daily
    = map (fun d =>
             (Timestamp (midnight d),
              map (fun j => mean (map (fun r => cell_at j r.2) (samples_on d df)))
                  (seq 0 (ncols df))))
          days.
Proof.
  unfold resample_D_mean. destruct (forallb _ _); [|done].
  destruct (index df) as [|l0 ls] eqn:E.
  - intros [= <-]. split; [done|]. exists []. split; [constructor|].
    split; [|done]. intros d. split; [by intros ?%elem_of_nil|].
    intros (d1 & _ & H & _). unfold sampled_days in H. rewrite E in H.
    by apply elem_of_nil in H.
  - intros [= <-]. split; [done|].
    set (d0 := day_of (timestamp_of l0)).
    assert (d0 ∈ sampled_days df) as Hd0.
    { unfold sampled_days. rewrite E. left. }
    destruct (Zmin_list_spec d0 (sampled_days df)) as (Hlo1 & Hlo2 & Hlo3).
    destruct (Zmax_list_spec d0 (sampled_days df)) as (Hhi1 & Hhi2 & Hhi3).
    rewrite Forall_forall in Hlo3, Hhi3.
    exists (day_range (Zmin_list d0 (sampled_days df))
                      (Zmax_list d0 (sampled_days df))).
    split; [apply NoDup_day_range|]. split.
    + intros d. rewrite elem_of_day_range. split.
      * intros Hd. exists (Zmin_list d0 (sampled_days df)),
                          (Zmax_list d0 (sampled_days df)).
        split; [by destruct Hlo1 as [->|?]|].
        split; [by destruct Hhi1 as [->|?]|]. done.
      * intros (d1 & d2 & H1 & H2 & Hd).
        specialize (Hlo3 _ H1). specialize (Hhi3 _ H2). lia.
    + unfold sampled_days. rewrite E. reflexivity.
Qed.

Lemma resample_D_mean_ok (df : DataFrame) :
  forallb is_timestamp (index df) = true ->
  exists daily, resample_D_mean df = Ok daily.
Proof.
  intros H. unfold resample_D_mean. rewrite H.
  destruct (index df); eauto.
Qed.

Lemma midnight_inj (d1 d2 : Z) : midnight d1 = midnight d2 -> d1 = d2.
Proof. unfold midnight, seconds_per_day. lia. Qed.

Lemma resample_D_mean_wf (df daily : DataFrame) :
  resample_D_mean df = Ok daily -> wf daily /\ NoDup (keys daily).
Proof.
  intros H. apply resample_D_mean_rows in H as (Hc & days & Hnd & _ & Hrows).
  split.
  - unfold wf. rewrite Hrows, Forall_fmap. apply Forall_forall.
    intros d _. simpl. unfold ncols. by rewrite Hc, length_map, length_seq.
  - rewrite keys_fmap, Hrows, <- list_fmap_compose.
    apply NoDup_fmap_2; [|done].
    intros d1 d2 Heq. simpl in Heq. injection Heq. apply midnight_inj.
Qed.

End Resample.

(** ** Order of the joins *)

Section Choices.
Import Pandas.

Lemma bind_fmap_r {A B C} (f : B -> C) (g : A -> list B) (l : list A) :
  f <$> (l ≫= g) = l ≫= (fun x => f <$> g x).
Proof.
  induction l as [|x l IH]; [done|].
  by rewrite !bind_cons, fmap_app, IH.
Qed.

Lemma bind_bind {A B C} (f : A -> list B) (g : B -> list C) (l : list A) :
  (l ≫= f) ≫= g = l ≫= (fun x => f x ≫= g).
Proof.
  induction l as [|x l IH]; [done|].
  by rewrite !bind_cons, bind_app, IH.
Qed.

Lemma bind_ext_in {A B} (f g : A -> list B) (l : list A) :
  (forall x, x ∈ l -> f x = g x) -> l ≫= f = l ≫= g.
Proof.
  induction l as [|x l IH]; intros H; [done|].
  rewrite !bind_cons, (H x) by left. f_equal. apply IH.
  intros y Hy. apply H. by right.
Qed.

Lemma bind_singleton_id {A} (l : list A) : l ≫= (fun x => [x]) = l.
Proof. induction l as [|x l IH]; [done|]. rewrite bind_cons, IH. done. Qed.

Lemma bind_one {A B} (f : A -> list B) (x : A) : [x] ≫= f = f x.
Proof. rewrite bind_cons. apply app_nil_r. Qed.

Lemma merge_row_blocks (right : DataFrame) (l : label * list cell) :
  merge_row right l = (fun b => (l.1, l.2 ++ b)) <$> blocks right l.1.
Proof.
  unfold merge_row, blocks.
  destruct (matches l.1 right) as [|m ms]; [done|].
  by rewrite <- list_fmap_compose.
Qed.

(** The rows of a sequence of left joins. *)
Lemma rows_merge_all_choices (auxs : list DataFrame) (data : DataFrame) :
  rows (merge_all data auxs)
  = rows data ≫= (fun l =>
      (fun bs => (l.1, l.2 ++ concat bs)) <$> choices auxs l.1).
Proof.
  revert data. induction auxs as [|aux auxs IH]; intros data.
  - simpl. rewrite <- (bind_singleton_id (rows data)) at 1.
    apply bind_ext_in. intros [l cs] _. simpl. by rewrite app_nil_r.
  - rewrite merge_all_cons, IH. unfold merge_left; simpl rows.
    rewrite bind_bind. apply bind_ext_in. intros l _.
    rewrite merge_row_blocks, list_fmap_bind. simpl choices.
    rewrite bind_fmap_r. apply bind_ext_in. intros b _. simpl.
    rewrite <- list_fmap_compose. apply list_fmap_ext.
    intros _ bs _. simpl. by rewrite app_assoc.
Qed.

Lemma blocks_length (right : DataFrame) (k : label) b :
  wf right -> b ∈ blocks right k -> length b = ncols right.
Proof.
  intros Hwf. unfold blocks.
  destruct (matches k right) as [|m ms] eqn:E.
  - intros ->%list_elem_of_singleton. by rewrite length_replicate.
  - intros (r & -> & Hr)%list_elem_of_fmap. rewrite <- E in Hr.
    unfold matches in Hr. apply list_elem_of_filter in Hr as [_ Hr].
    unfold wf in Hwf. rewrite Forall_forall in Hwf. by apply Hwf.
Qed.

Lemma blocks_singleton (right : DataFrame) (k : label) :
  ~ 2 <= length (matches k right) -> exists b, blocks right k = [b].
Proof.
  unfold blocks. destruct (matches k right) as [|m [|m' ms]]; simpl; intros H.
  - eauto.
  - eauto.
  - lia.
Qed.

Lemma Forall2_bind_same {A B C} (R : B -> C -> Prop)
    (f : A -> list B) (g : A -> list C) (l : list A) :
  (forall x, x ∈ l -> Forall2 R (f x) (g x)) -> Forall2 R (l ≫= f) (l ≫= g).
Proof.
  induction l as [|x l IH]; intros H; [constructor|].
  rewrite !bind_cons. apply Forall2_app; [apply H; left|].
  apply IH. intros y Hy. apply H. by right.
Qed.

Lemma Forall2_fmap_same {A B C} (R : B -> C -> Prop)
    (f : A -> B) (g : A -> C) (l : list A) :
  (forall x, x ∈ l -> R (f x) (g x)) -> Forall2 R (f <$> l) (g <$> l).
Proof.
  induction l as [|x l IH]; intros H; [constructor|].
  constructor; [apply H; left|]. apply IH. intros y Hy. apply H. by right.
Qed.

Lemma Forall2_compose {A B C} (P : A -> B -> Prop) (Q : B -> C -> Prop)
    (T : A -> C -> Prop) l1 l2 l3 :
  (forall a b c, P a b -> Q b c -> T a c) ->
  Forall2 P l1 l2 -> Forall2 Q l2 l3 -> Forall2 T l1 l3.
Proof.
  intros HT H. revert l3. induction H; intros l3 H3; inversion H3; subst;
    constructor; eauto.
Qed.

Lemma Forall2_fmap_eq {A B C} (R : A -> B -> Prop) (f : A -> C) (g : B -> C)
    l1 l2 :
  (forall a b, R a b -> f a = g b) -> Forall2 R l1 l2 -> f <$> l1 = g <$> l2.
Proof. intros H. induction 1; [done|]. simpl. f_equal; auto. Qed.

Lemma same_named_cons aux auxs' auxs b bs' bs :
  length b = ncols aux ->
  same_named auxs' auxs bs' bs ->
  same_named (aux :: auxs') (aux :: auxs) (b :: bs') (b :: bs).
Proof.
  intros Hb (H1 & H2 & Hp). unfold same_named, named in *.
  rewrite !fmap_cons. simpl concat. rewrite !length_app.
  unfold ncols in Hb. split; [lia|]. split; [lia|].
  rewrite !zip_with_app by done. by apply Permutation_app_head.
Qed.

Lemma same_named_swap x y auxs bx by' bs :
  length bx = ncols x -> length by' = ncols y ->
  length (concat bs) = length (concat (columns <$> auxs)) ->
  same_named (y :: x :: auxs) (x :: y :: auxs)
    (by' :: bx :: bs) (bx :: by' :: bs).
Proof.
  intros Hx Hy Hbs. unfold same_named, named, ncols in *.
  rewrite !fmap_cons. simpl concat. rewrite !length_app.
  split; [lia|]. split; [lia|].
  rewrite !zip_with_app by (rewrite ?length_app; lia).
  rewrite !app_assoc. apply Permutation_app_tail, Permutation_app_comm.
Qed.

Lemma choices_lengths (auxs : list DataFrame) (k : label) bs :
  Forall wf auxs -> bs ∈ choices auxs k ->
  length (concat bs) = length (concat (columns <$> auxs)).
Proof.
  intros Hwf. revert bs. induction Hwf as [|aux auxs Hw _ IH]; intros bs.
  - simpl. by intros ->%list_elem_of_singleton.
  - simpl choices. intros (b & Hin & Hb)%list_elem_of_bind.
    apply list_elem_of_fmap in Hin as (bs0 & -> & Hbs0).
    rewrite fmap_cons. simpl concat. rewrite !length_app, (IH _ Hbs0).
    rewrite (blocks_length aux k b Hw Hb). done.
Qed.

Lemma repeating_cons_le (k : label) aux auxs :
  length (repeating k auxs) <= length (repeating k (aux :: auxs)).
Proof.
  unfold repeating. rewrite filter_cons. case_decide; simpl; lia.
Qed.

(** Under another order of the joins a left row gives rise to as many rows,
    which carry, one for one, the same name/cell pairs, provided that at most
    one auxiliary table repeats the key of the row. *)
Lemma choices_permutation (auxs' auxs : list DataFrame) (k : label) :
  auxs' ≡ₚ auxs -> Forall wf auxs -> length (repeating k auxs) <= 1 ->
  Forall2 (same_named auxs' auxs) (choices auxs' k) (choices auxs k).
Proof.
  intros Hp. induction Hp as [|x l' l Hp IH|x y l|l1 l2 l3 Hp1 IH1 Hp2 IH2];
    intros Hwf Hrep.
  - repeat constructor.
  - apply Forall_cons in Hwf as [Hwx Hwf].
    pose proof (repeating_cons_le k x l) as Hle.
    specialize (IH Hwf ltac:(lia)).
    simpl choices. apply Forall2_bind_same. intros b Hb.
    apply Forall2_fmap. eapply Forall2_impl; [exact IH|].
    intros bs' bs Hs. simpl. apply same_named_cons; [|done].
    by apply (blocks_length x k).
  - apply Forall_cons in Hwf as [Hwx Hwf]. apply Forall_cons in Hwf as [Hwy Hwf].
    assert (~ 2 <= length (matches k x) \/ ~ 2 <= length (matches k y)) as Hone.
    { unfold repeating in Hrep. rewrite !filter_cons in Hrep.
      repeat case_decide; simpl in Hrep; [lia|by right|by left|by left]. }
    assert (forall bx by' bs, bx ∈ blocks x k -> by' ∈ blocks y k ->
              bs ∈ choices l k ->
              same_named (y :: x :: l) (x :: y :: l)
                (by' :: bx :: bs) (bx :: by' :: bs)) as Hswap.
    { intros bx by' bs Hbx Hby Hbs. apply same_named_swap.
      - by apply (blocks_length x k).
      - by apply (blocks_length y k).
      - by apply (choices_lengths l k). }
    simpl choices. destruct Hone as [Hx|Hy].
    + destruct (blocks_singleton x k Hx) as [bx Ex]. rewrite Ex.
      rewrite !bind_one.
      assert (bx ∈ blocks x k) as Hbx by (rewrite Ex; left).
      rewrite bind_fmap_r.
      apply Forall2_bind_same. intros by' Hby.
      rewrite <- !list_fmap_compose.
      apply Forall2_fmap_same. intros bs Hbs. simpl. by apply Hswap.
    + destruct (blocks_singleton y k Hy) as [by' Ey]. rewrite Ey.
      rewrite !bind_one.
      assert (by' ∈ blocks y k) as Hby by (rewrite Ey; left).
      rewrite bind_fmap_r.
      apply Forall2_bind_same. intros bx Hbx.
      rewrite <- !list_fmap_compose.
      apply Forall2_fmap_same. intros bs Hbs. simpl. by apply Hswap.
  - assert (Forall wf l2) as Hwf2 by (by rewrite Hp2).
    assert (length (repeating k l2) <= 1) as Hrep2.
    { unfold repeating in *. by rewrite Hp2. }
    specialize (IH1 Hwf2 Hrep2). specialize (IH2 Hwf Hrep).
    eapply Forall2_compose; [|exact IH1|exact IH2].
    intros bs1 bs2 bs3 (H1 & _ & Hp12) (_ & H3 & Hp23).
    split; [done|]. split; [done|]. by etrans.
Qed.

End Choices.

Section MergeOrder.
Import Pandas.

Lemma matches_unique (right : DataFrame) (k : label) :
  NoDup (keys right) -> length (matches k right) <= 1.
Proof.
  intros Hnd. rewrite keys_fmap in Hnd. unfold matches.
  apply (filter_key_unique (fun r : label * list cell => join_key r.1)
           (join_key k) (rows right) Hnd).
Qed.

Lemma repeating_snoc_unique (k : label) (auxs : list DataFrame) aux :
  NoDup (keys aux) -> repeating k (auxs ++ [aux]) = repeating k auxs.
Proof.
  intros Hnd. unfold repeating. rewrite filter_app, filter_cons.
  pose proof (matches_unique aux k Hnd).
  case_decide; [lia|]. by rewrite filter_nil, app_nil_r.
Qed.

Lemma named_cells_permutation (cols : list string) (cells : list cell)
    (auxs' auxs : list DataFrame) (bs' bs : list (list cell)) :
  length cells = length cols -> same_named auxs' auxs bs' bs ->
  zip (cols ++ concat (columns <$> auxs')) (cells ++ concat bs')
  ≡ₚ zip (cols ++ concat (columns <$> auxs)) (cells ++ concat bs).
Proof.
  intros Hlen (_ & _ & Hp). rewrite !zip_with_app by done.
  by apply Permutation_app_head.
Qed.

(** Left joins on distinct column names, taken in another order, when no key
    of the left table is repeated in more than one of the joined tables: the
    columns follow the order of the joins, the index is the same, and so are
    the values under every column name. *)
Lemma merge_all_reordered (data : DataFrame) (auxs auxs' : list DataFrame) :
  auxs' ≡ₚ auxs -> wf data -> Forall wf auxs ->
  Forall (fun k => length (repeating k auxs) <= 1) (index data) ->
  NoDup (columns data ++ concat (columns <$> auxs)) ->
  columns (merge_all data auxs') = columns data ++ concat (columns <$> auxs') /\
  index (merge_all data auxs') = index (merge_all data auxs) /\
  (forall c, getitem c (merge_all data auxs') = getitem c (merge_all data auxs)).
Proof.
  intros Hp Hwf Hwfs Hrep Hnd.
  assert (NoDup (columns data ++ concat (columns <$> auxs'))) as Hnd'
    by (by rewrite Hp).
  assert (forall l, l ∈ rows data ->
            Forall2 (same_named auxs' auxs) (choices auxs' l.1) (choices auxs l.1))
    as Hch.
  { intros l Hl. apply choices_permutation; [done|done|].
    rewrite Forall_forall in Hrep. apply Hrep.
    unfold index. apply list_elem_of_fmap. by exists l. }
  split; [by apply columns_merge_all_disjoint|]. split.
  - unfold index. rewrite !rows_merge_all_choices, !bind_fmap_r.
    apply bind_ext_in. intros l Hl. rewrite <- !list_fmap_compose.
    by apply (Forall2_fmap_eq (same_named auxs' auxs)); [|apply Hch].
  - intros c. unfold getitem. rewrite !columns_merge_all_disjoint by done.
    destruct (col_index c (columns data ++ concat (columns <$> auxs')))
      as [j'|] eqn:E';
      destruct (col_index c (columns data ++ concat (columns <$> auxs)))
      as [j|] eqn:E.
    + f_equal.
      change (map ?f ?l) with (f <$> l).
      rewrite !rows_merge_all_choices, !bind_fmap_r.
      apply bind_ext_in. intros [l cs] Hl. rewrite <- !list_fmap_compose.
      apply (Forall2_fmap_eq (same_named auxs' auxs)); [|by apply Hch].
      intros bs' bs Hs. simpl.
      assert (length cs = length (columns data)) as Hlen.
      { unfold wf in Hwf. rewrite Forall_forall in Hwf. by apply (Hwf (l, cs)). }
      destruct Hs as (Hl' & Hl0 & Hs).
      symmetry.
      apply (cell_by_name (columns data ++ concat (columns <$> auxs))
               (cs ++ concat bs) c j (cell_at j' (cs ++ concat bs')) Hnd).
      { rewrite !length_app. lia. }
      { done. }
      rewrite <- (named_cells_permutation (columns data) cs auxs' auxs bs' bs)
        by done.
      apply (cell_by_name (columns data ++ concat (columns <$> auxs'))
               (cs ++ concat bs') c j' (cell_at j' (cs ++ concat bs')) Hnd').
      { rewrite !length_app. lia. }
      { done. }
      done.
    + apply col_index_Some, list_elem_of_lookup_2 in E'.
      apply col_index_None in E. exfalso. apply E. by rewrite <- Hp.
    + apply col_index_Some, list_elem_of_lookup_2 in E.
      apply col_index_None in E'. exfalso. apply E'. by rewrite Hp.
    + done.
Qed.

End MergeOrder.

(** C7, as stated, fails: joining the hash rate before the average block size
    or after it gives two different tables, the columns being laid out in the
    order of the joins. With a date repeated in two auxiliary series the rows
    come out in a different order, and with a column name shared by two
    auxiliary series the suffixed columns swap their contents. *)
Lemma merge_order_changes_table :
  merge_blockchain_data primary_100 hash_rate_3 avg_block_size_3
    network_difficulty_3 miners_revenue_3 mempool_size_3
  <> merge_blockchain_data primary_100 avg_block_size_3 hash_rate_3
       network_difficulty_3 miners_revenue_3 mempool_size_3 /\
  Pandas.getitem "A" (merge_all one_row [twice_a; twice_b])
  <> Pandas.getitem "A" (merge_all one_row [twice_b; twice_a]) /\
  Pandas.getitem "value_x" (merge_all one_row [value_a; value_b])
  <> Pandas.getitem "value_x" (merge_all one_row [value_b; value_a]).
Proof.
  split; [|split].
  - intros H.
    apply (f_equal (fun r => match r with
                             | Ok t => columns t
                             | Raise _ => []
                             end)) in H.
    vm_compute in H. discriminate.
  - intros H. vm_compute in H. discriminate.
  - intros H. vm_compute in H. discriminate.
Qed.

(** A date repeated in one series only: the primary row is kept once per row
    of that series, and the joins give the same index and the same values
    under every name in either order. *)
Example repeated_date_in_one_series :
  repeating (Date 0) [twice_a; value_b] = [twice_a] /\
  index (merge_all one_row [twice_a; value_b]) = [Date 0; Date 0] /\
  index (merge_all one_row [value_b; twice_a]) = [Date 0; Date 0] /\
  Forall (fun c =>
            Pandas.getitem c (merge_all one_row [twice_a; value_b])
            = Pandas.getitem c (merge_all one_row [value_b; twice_a]))
         ["Close"; "A"; "value"].
Proof.
  split; [reflexivity|]. split; [reflexivity|]. split; [reflexivity|].
  repeat constructor.
Qed.

(** C7 (amended): when all column names are distinct and no date of the
    primary table is repeated in more than one of the four fetched series,
    performing the left joins of [add_blockchain_data] in any other order
    gives a table with the same index and the same values under every column
    name. The order of the columns follows the order of the joins: the
    columns of the primary table, then those of each series in the order in
    which it is joined. *)
Theorem merge_order_independent_by_name
    (data h a n m mp merged : DataFrame) :
  merge_blockchain_data data h a n m mp = Ok merged ->
  wf data -> Forall wf [h; a; n; m] ->
  Forall (fun k => length (repeating k [h; a; n; m]) <= 1) (index data) ->
  NoDup (columns data ++ concat (columns <$> [h; a; n; m; mp])) ->
  exists daily,
    Pandas.resample_D_mean mp = Ok daily /\
    columns merged
    = columns data ++ concat (columns <$> [h; a; n; m; daily]) /\
    forall auxs',
      auxs' ≡ₚ [h; a; n; m; daily] ->
      columns (merge_all data auxs')
      = columns data ++ concat (columns <$> auxs') /\
      index (merge_all data auxs') = index merged /\
      (forall c,
          Pandas.getitem c (merge_all data auxs') = Pandas.getitem c merged).
Proof.
  rewrite merge_blockchain_data_all.
  destruct (Pandas.resample_D_mean mp) as [daily|e] eqn:E; [|done].
  unfold rbind. intros [= <-] Hwf Hwfs Hrep Hnd.
  destruct (resample_D_mean_wf _ _ E) as [Hwfd Hkd].
  destruct (resample_D_mean_rows _ _ E) as [Hcd _].
  assert (Forall wf [h; a; n; m; daily]) as Hwfs'.
  { apply Forall_app with (l1 := [h; a; n; m]) (l2 := [daily]).
    split; [done | by constructor]. }
  assert (Forall (fun k => length (repeating k [h; a; n; m; daily]) <= 1)
            (index data)) as Hrep'.
  { eapply Forall_impl; [exact Hrep|]. intros k Hk. simpl in Hk.
    change [h; a; n; m; daily] with ([h; a; n; m] ++ [daily]).
    by rewrite (repeating_snoc_unique k [h; a; n; m] daily Hkd). }
  assert (NoDup (columns data ++ concat (columns <$> [h; a; n; m; daily])))
    as Hnd'.
  { simpl in *. by rewrite Hcd. }
  exists daily. split; [done|]. split.
  - apply (columns_merge_all_disjoint [h; a; n; m; daily] data Hnd').
  - intros auxs' Hp.
    apply (merge_all_reordered data [h; a; n; m; daily] auxs' Hp Hwf Hwfs'
             Hrep' Hnd').
Qed.

Lemma merge_order_independent_by_name_witness :
  exists daily,
    Pandas.resample_D_mean mempool_size_3 = Ok daily /\
    columns merged_100
    = columns primary_100
      ++ concat (columns <$> [hash_rate_3; avg_block_size_3;
                              network_difficulty_3; miners_revenue_3; daily]) /\
    forall auxs',
      auxs' ≡ₚ [hash_rate_3; avg_block_size_3; network_difficulty_3;
                miners_revenue_3; daily] ->
      columns (merge_all primary_100 auxs')
      = columns primary_100 ++ concat (columns <$> auxs') /\
      index (merge_all primary_100 auxs') = index merged_100 /\
      (forall c,
          Pandas.getitem c (merge_all primary_100 auxs')
          = Pandas.getitem c merged_100).
Proof.
  apply (merge_order_independent_by_name primary_100 hash_rate_3
           avg_block_size_3 network_difficulty_3 miners_revenue_3
           mempool_size_3 merged_100).
  - vm_compute. reflexivity.
  - apply (bool_decide_unpack _). vm_compute. reflexivity.
  - apply (bool_decide_unpack _). vm_compute. reflexivity.
  - apply (bool_decide_unpack _). vm_compute. reflexivity.
  - apply (bool_decide_unpack _). vm_compute. reflexivity.
Defined.

(** C8: a mempool series over timestamps is resampled before the last join of
    [add_blockchain_data], and the resampled table is what is joined: it has
    the same columns and exactly one row per calendar day from the first to
    the last sampled day, labelled by the day, each cell being the mean of the
    day's samples in that column. In Example 5, 72 hourly samples spanning
    three days give exactly 3 daily rows, the means of each day's 24 samples. *)
Theorem mempool_resampled_to_daily_mean (data h a n m mp : DataFrame) :
  forallb is_timestamp (index mp) = true ->
  exists daily,
    Pandas.resample_D_mean mp = Ok daily /\
    merge_blockchain_data data h a n m mp
    = Ok (Pandas.merge_left (merge_all data [h; a; n; m]) daily) /\
    columns daily = columns mp /\
    NoDup (index daily) /\
    (forall l,
        l ∈ index daily <->
        exists d d1 d2,
          l = Timestamp (midnight d) /\
          d1 ∈ sampled_days mp /\ d2 ∈ sampled_days mp /\ (d1 <= d <= d2)%Z) /\
    (forall d cells,
        (Timestamp (midnight d), cells) ∈ rows daily ->
        cells
        = map (fun j =>
                 Pandas.mean (map (fun r => Pandas.cell_at j r.2)
                                (Pandas.samples_on d mp)))
              (seq 0 (ncols mp))) /\
    Pandas.resample_D_mean hourly_3_days
    = Ok (mkDF ["MempoolSize"]
            [ (Timestamp 0, [Some (23 # 2)%Q]);
              (Timestamp 86400, [Some (71 # 2)%Q]);
              (Timestamp 172800, [Some (119 # 2)%Q]) ]).
Proof.
  intros Hts. destruct (resample_D_mean_ok mp Hts) as [daily E].
  exists daily. split; [done|].
  destruct (resample_D_mean_rows _ _ E) as (Hc & days & Hnd & Hdays & Hrows).
  assert (index daily = (fun d => Timestamp (midnight d)) <$> days) as Hidx.
  { unfold index. rewrite Hrows, <- list_fmap_compose. done. }
  split; [|split; [|split; [|split; [|split]]]].
  - rewrite merge_blockchain_data_all, E. reflexivity.
  - done.
  - rewrite Hidx. apply NoDup_fmap_2; [|done].
    intros d1 d2 [= Heq]. by apply midnight_inj.
  - intros l. rewrite Hidx, list_elem_of_fmap. split.
    + intros (d & -> & Hd). apply Hdays in Hd as (d1 & d2 & ?). exists d, d1, d2.
      tauto.
    + intros (d & d1 & d2 & -> & H1 & H2 & Hd). exists d. split; [done|].
      apply Hdays. eauto.
  - intros d cells Hin. rewrite Hrows in Hin.
    apply list_elem_of_fmap in Hin as (d' & [= Hd ->] & _).
    apply midnight_inj in Hd as <-. done.
  - vm_compute. reflexivity.
Qed.

Lemma mempool_resampled_to_daily_mean_witness :
  exists daily,
    Pandas.resample_D_mean hourly_3_days = Ok daily /\
    merge_blockchain_data primary_100 hash_rate_3 avg_block_size_3
      network_difficulty_3 miners_revenue_3 hourly_3_days
    = Ok (Pandas.merge_left
            (merge_all primary_100
               [hash_rate_3; avg_block_size_3; network_difficulty_3;
                miners_revenue_3]) daily) /\
    columns daily = columns hourly_3_days /\
    NoDup (index daily) /\
    (forall l,
        l ∈ index daily <->
        exists d d1 d2,
          l = Timestamp (midnight d) /\
          d1 ∈ sampled_days hourly_3_days /\
          d2 ∈ sampled_days hourly_3_days /\ (d1 <= d <= d2)%Z) /\
    (forall d cells,
        (Timestamp (midnight d), cells) ∈ rows daily ->
        cells
        = map (fun j =>
                 Pandas.mean (map (fun r => Pandas.cell_at j r.2)
                                (Pandas.samples_on d hourly_3_days)))
              (seq 0 (ncols hourly_3_days))) /\
    Pandas.resample_D_mean hourly_3_days
    = Ok (mkDF ["MempoolSize"]
            [ (Timestamp 0, [Some (23 # 2)%Q]);
              (Timestamp 86400, [Some (71 # 2)%Q]);
              (Timestamp 172800, [Some (119 # 2)%Q]) ]).
Proof.
  apply (mempool_resampled_to_daily_mean primary_100 hash_rate_3
           avg_block_size_3 network_difficulty_3 miners_revenue_3
           hourly_3_days).
  vm_compute. reflexivity.
Defined.

(** ** In-place updates *)

Lemma bind_Ok_inv {A B} (m : M A) (k : A -> M B) w b w' :
  (m ≫= k) w = (Ok b, w') ->
  exists a w1, m w = (Ok a, w1) /\ k a w1 = (Ok b, w').
Proof.
  rewrite run_bind. destruct (m w) as [[a|e] w1]; [eauto | done].
Qed.

Lemma deref_Ok_inv r w d w' :
  deref r w = (Ok d, w') -> heap w !! r = Some d /\ w' = w.
Proof.
  unfold deref. destruct (heap w !! r); [|done]. by intros [= -> ->].
Qed.

Lemma getitem_at_Ok_inv r c w v w' :
  getitem_at r c w = (Ok v, w') -> w' = w.
Proof.
  unfold getitem_at. intros (d & w1 & Hd & Hl)%bind_Ok_inv.
  apply deref_Ok_inv in Hd as [_ ->]. unfold lift in Hl. congruence.
Qed.

Lemma setitem_columns c vals d d' :
  Pandas.setitem c vals d = Ok d' -> extends d d' /\ c ∈ columns d'.
Proof.
  unfold Pandas.setitem. case_bool_decide as Hlen; [|done].
  unfold nrows in Hlen.
  destruct (Pandas.col_index c (columns d)) as [j|] eqn:E; intros [= <-];
    unfold extends; simpl.
  - split; [split; [|done]|].
    + apply (fst_zip_with_l (fun r v => <[j:=v]> r.2)); done.
    + apply col_index_Some in E. by eapply list_elem_of_lookup_2.
  - split; [split|].
    + apply (fst_zip_with_l (fun r v => r.2 ++ [v])); done.
    + intros x Hx. apply elem_of_app. by left.
    + apply elem_of_app. right. left.
Qed.

Lemma setitem_at_Ok_inv r c vals w w' :
  setitem_at r c vals w = (Ok tt, w') ->
  exists d d', heap w !! r = Some d /\ Pandas.setitem c vals d = Ok d' /\
               updated_at r d' w w'.
Proof.
  unfold setitem_at. intros (d & w1 & Hd & Hk)%bind_Ok_inv.
  apply deref_Ok_inv in Hd as [Hd ->].
  apply bind_Ok_inv in Hk as (d' & w2 & Hl & Ha).
  unfold lift in Hl. injection Hl as Hset <-.
  unfold assign in Ha. injection Ha as <-. by exists d, d'.
Qed.

Lemma setitem_Ok_length c vals d d' :
  Pandas.setitem c vals d = Ok d' -> length vals = nrows d.
Proof. unfold Pandas.setitem. by case_bool_decide. Qed.

Lemma setitem_wf c vals d d' :
  wf d -> Pandas.setitem c vals d = Ok d' -> wf d'.
Proof.
  intros Hwf Hset.
  destruct (getitem_setitem c vals d Hwf (setitem_Ok_length _ _ _ _ Hset))
    as (d2 & Hset2 & _ & Hwf2 & _).
  congruence.
Qed.

Lemma map_zip_with_set_ne (j j0 : nat) (rs : list (label * list cell)) vals :
  j0 <> j -> length vals = length rs ->
  map (fun r => Pandas.cell_at j0 r.2)
      (zip_with (fun r v => (r.1, <[j:=v]> r.2)) rs vals)
  = map (fun r => Pandas.cell_at j0 r.2) rs.
Proof.
  intros Hne. revert vals.
  induction rs as [|r rs IH]; intros [|v vals] Hlen; simpl in *; try done.
  f_equal; [|apply IH; lia].
  unfold Pandas.cell_at. by rewrite list_lookup_insert_ne.
Qed.

Lemma map_zip_with_snoc_lt (n j0 : nat) (rs : list (label * list cell)) vals :
  j0 < n -> Forall (fun r => length r.2 = n) rs -> length vals = length rs ->
  map (fun r => Pandas.cell_at j0 r.2)
      (zip_with (fun r v => (r.1, r.2 ++ [v])) rs vals)
  = map (fun r => Pandas.cell_at j0 r.2) rs.
Proof.
  intros Hj H. revert vals.
  induction H as [|r rs Hr _ IH]; intros [|v vals] Hlen; simpl in *;
    try done.
  f_equal; [|apply IH; lia].
  unfold Pandas.cell_at. by rewrite lookup_app_l by lia.
Qed.

(** Assigning a column leaves the other columns as they were. *)
Lemma getitem_setitem_ne c c' vals d d' :
  c <> c' -> wf d -> Pandas.setitem c' vals d = Ok d' ->
  Pandas.getitem c d' = Pandas.getitem c d.
Proof.
  intros Hne Hwf Hset.
  pose proof (setitem_Ok_length _ _ _ _ Hset) as Hlen. unfold nrows in Hlen.
  unfold Pandas.setitem in Hset. rewrite bool_decide_eq_true_2 in Hset by done.
  unfold Pandas.getitem.
  destruct (Pandas.col_index c' (columns d)) as [j|] eqn:E';
    injection Hset as <-; simpl.
  - destruct (Pandas.col_index c (columns d)) as [j0|] eqn:E; [|done].
    f_equal. apply map_zip_with_set_ne; [|done].
    intros ->. apply col_index_Some in E, E'. congruence.
  - destruct (Pandas.col_index c (columns d)) as [j0|] eqn:E.
    + pose proof (col_index_Some _ _ _ E) as Hj0.
      assert (Pandas.col_index c (columns d ++ [c']) = Some j0) as ->.
      { unfold Pandas.col_index in *.
        destruct (list_find (fun x => x = c) (columns d)) as [[i x]|] eqn:F;
          [|done].
        injection E as ->.
        by rewrite (list_find_app_l _ _ _ _ _ F). }
      f_equal. apply map_zip_with_snoc_lt with (n := ncols d); [|done|done].
      unfold ncols. by eapply lookup_lt_Some.
    + apply col_index_None in E.
      assert (Pandas.col_index c (columns d ++ [c']) = None) as ->; [|done].
      apply col_index_None. rewrite not_elem_of_app, not_elem_of_cons.
      split; [done|]. split; [done | apply not_elem_of_nil].
Qed.

Lemma extends_refl d : extends d d.
Proof. by split. Qed.

Lemma extends_trans d1 d2 d3 : extends d1 d2 -> extends d2 d3 -> extends d1 d3.
Proof.
  intros [H1 H2] [H3 H4]. split; [congruence|]. intros x Hx. by apply H4, H2.
Qed.

Lemma getitem_at_Ok_inv' r c w v w' :
  getitem_at r c w = (Ok v, w') ->
  exists d, heap w !! r = Some d /\ Pandas.getitem c d = Ok v /\ w' = w.
Proof.
  unfold getitem_at. intros (d & w1 & Hd & Hl)%bind_Ok_inv.
  apply deref_Ok_inv in Hd as [Hd ->]. unfold lift in Hl.
  injection Hl as Hg <-. eauto.
Qed.

Lemma assigning_start data w d :
  heap w !! data = Some d ->
  assigning data (heap w) (epochs_run w) d [] d w.
Proof.
  intros Hd.
  split; [|split; [apply extends_refl | split; [constructor | by split]]].
  rewrite list_insert_id by done. by destruct w.
Qed.

Lemma assigning_lookup data h e d S d' w :
  data < length h -> assigning data h e d S d' w -> heap w !! data = Some d'.
Proof.
  intros Hlt (-> & _ & _ & _). simpl. by apply list_lookup_insert_eq.
Qed.

Lemma assigning_setitem data h e d S d1 w1 c vals w2 :
  data < length h -> assigning data h e d S d1 w1 ->
  setitem_at data c vals w1 = (Ok tt, w2) ->
  exists d2, assigning data h e d (c :: S) d2 w2.
Proof.
  intros Hlt Hinv Hset.
  pose proof (assigning_lookup _ _ _ _ _ _ _ Hlt Hinv) as Hd1.
  destruct Hinv as (-> & Hext & HS & Hframe).
  apply setitem_at_Ok_inv in Hset as (d1' & d2 & Hd1' & Hset & ->).
  simpl in Hd1, Hd1'. rewrite Hd1 in Hd1'. injection Hd1' as <-.
  pose proof (setitem_columns _ _ _ _ Hset) as [Hext2 Hc].
  exists d2. split; [|split; [|split]].
  - simpl. by rewrite list_insert_insert_eq.
  - by eapply extends_trans.
  - constructor; [done|]. eapply Forall_impl; [exact HS|].
    intros x Hx. by apply Hext2.
  - intros Hwf. destruct (Hframe Hwf) as [Hwf1 Hsame].
    split; [by eapply setitem_wf|].
    intros c0 Hc0. apply not_elem_of_cons in Hc0 as [Hne Hc0].
    rewrite (getitem_setitem_ne c0 c vals d1 d2 Hne Hwf1 Hset).
    by apply Hsame.
Qed.

Lemma assigning_getitem data h e d S d1 w1 c v w2 :
  assigning data h e d S d1 w1 ->
  getitem_at data c w1 = (Ok v, w2) -> assigning data h e d S d1 w2.
Proof. intros Hinv Hget. apply getitem_at_Ok_inv in Hget as ->. done. Qed.

Lemma assigning_deref data h e d S d1 w1 d1' w2 :
  assigning data h e d S d1 w1 ->
  deref data w1 = (Ok d1', w2) -> assigning data h e d S d1 w2.
Proof. intros Hinv Hget. apply deref_Ok_inv in Hget as [_ ->]. done. Qed.

(** One statement of [add_all_technical_indicators] at a time. *)
Ltac indicator_step H Hinv Hlt :=
  let a := fresh "a" in
  let w1 := fresh "w" in
  let Hstep := fresh "Hstep" in
  apply bind_Ok_inv in H as (a & w1 & Hstep & H);
  first
    [ apply (assigning_getitem _ _ _ _ _ _ _ _ _ _ Hinv) in Hstep;
      clear Hinv; rename Hstep into Hinv
    | apply (assigning_deref _ _ _ _ _ _ _ _ _ Hinv) in Hstep;
      clear Hinv; rename Hstep into Hinv
    | destruct a;
      apply (assigning_setitem _ _ _ _ _ _ _ _ _ _ Hlt Hinv) in Hstep
        as [? Hstep];
      clear Hinv; rename Hstep into Hinv ];
  repeat match type of H with
         | context [let '(_, _) := ?p in _] => destruct p as [? ?]
         end.

(** What [add_all_technical_indicators] does to the caller's table and what
    it returns. *)
Lemma add_all_technical_indicators_run ta data w r w' :
  add_all_technical_indicators ta data w = (Ok r, w') ->
  exists d d',
    heap w !! data = Some d /\ extends d d' /\
    Forall (fun c => c ∈ columns d') indicator_columns /\
    same_outside indicator_columns d d' /\
    w' = mkWorld (<[data:=d']> (heap w) ++ [clean d']) (epochs_run w) /\
    r = length (heap w).
Proof.
  unfold add_all_technical_indicators. intros H.
  apply bind_Ok_inv in H as (close & w1 & Hg & H).
  apply getitem_at_Ok_inv' in Hg as (d & Hd & _ & ->).
  pose proof (assigning_start _ _ _ Hd) as Hinv.
  assert (data < length (heap w)) as Hlt by (by eapply lookup_lt_Some).
  destruct (calculate_bollinger_bands ta close) as [[? ?] ?].
  do 24 (indicator_step H Hinv Hlt).
  unfold clean_data in H.
  apply bind_Ok_inv in H as (d' & wd & Hderef & H).
  pose proof (assigning_lookup _ _ _ _ _ _ _ Hlt Hinv) as Hd'.
  apply deref_Ok_inv in Hderef as [Hd'' ->]. rewrite Hd' in Hd''.
  injection Hd'' as <-.
  destruct Hinv as (-> & Hext & HS & Hframe).
  unfold alloc in H. simpl in H. injection H as <- <-.
  exists d. eexists. split; [done|]. split; [exact Hext|].
  split; [|split; [|split; [done | by rewrite length_insert]]].
  - unfold indicator_columns.
    repeat match goal with
           | Hall : Forall _ (_ :: _) |- _ =>
               apply Forall_cons in Hall as [? Hall]
           end.
    repeat constructor; assumption.
  - intros Hwf. destruct (Hframe Hwf) as [Hwf' Hsame]. split; [done|].
    intros c Hc. apply Hsame. intros Hin. apply Hc. revert Hin.
    match goal with
    | |- c ∈ ?S -> _ =>
        assert (Forall (fun x => x ∈ indicator_columns) S) as Hsub
          by (apply (bool_decide_unpack _); vm_compute; reflexivity)
    end.
    rewrite Forall_forall in Hsub. apply Hsub.
Qed.

Lemma set_index_Ok_inv labels d d' :
  Pandas.set_index labels d = Ok d' ->
  index d' = labels /\ columns d' = columns d /\ (rows d').*2 = (rows d).*2.
Proof.
  unfold Pandas.set_index. case_bool_decide as Hlen; [|done].
  intros [= <-]. unfold index, nrows in *; simpl.
  split; [|split; [done|]].
  - revert labels Hlen. induction (rows d) as [|x xs IH]; intros [|l ls] ?;
      simplify_eq/=; [done|]. f_equal. by apply IH.
  - revert labels Hlen. induction (rows d) as [|x xs IH]; intros [|l ls] ?;
      simplify_eq/=; [done|]. f_equal. by apply IH.
Qed.

(** What [add_blockchain_data] does to the caller's table and what it
    returns. *)
Lemma add_blockchain_data_run api data timespan start w r w' :
  add_blockchain_data api data timespan start w = (Ok r, w') ->
  exists d dated merged,
    heap w !! data = Some d /\
    Pandas.index_date (index d) = Ok (index dated) /\
    columns dated = columns d /\ (rows dated).*2 = (rows d).*2 /\
    merge_blockchain_data dated
      (get_hash_rate_over_time api timespan start)
      (get_avg_block_size api timespan start)
      (get_network_difficulty api timespan start)
      (get_miners_revenue api timespan start)
      (get_mempool_size api timespan start) = Ok merged /\
    w' = mkWorld (<[data:=dated]> (heap w) ++ [clean merged]) (epochs_run w) /\
    r = length (heap w).
Proof.
  unfold add_blockchain_data. intros H.
  apply bind_Ok_inv in H as (d & w1 & Hd & H).
  apply deref_Ok_inv in Hd as [Hd ->].
  apply bind_Ok_inv in H as (dates & w1 & Hdates & H).
  unfold lift in Hdates. injection Hdates as Hdates <-.
  apply bind_Ok_inv in H as (dated & w1 & Hset & H).
  unfold lift in Hset. injection Hset as Hset <-.
  apply set_index_Ok_inv in Hset as (Hidx & Hcols & Hcells).
  apply bind_Ok_inv in H as ([] & w1 & Hassign & H).
  unfold assign in Hassign. injection Hassign as <-.
  apply bind_Ok_inv in H as (merged & w1 & Hmerge & H).
  unfold lift in Hmerge. injection Hmerge as Hmerge <-.
  unfold alloc in H. simpl in H. injection H as <- <-.
  exists d, dated, merged. rewrite Hidx, length_insert. done.
Qed.

(** C4, as stated, fails: both stages change the table the caller passed.
    After [add_all_technical_indicators] the caller's table has the indicator
    columns; after [add_blockchain_data] its index holds dates. *)
Lemma stages_mutate_the_callers_table :
  (add_all_technical_indicators ta_close 0 closes_world).1 = Ok 1 /\
  heap indicators_world !! 0 <> heap closes_world !! 0 /\
  (add_blockchain_data api_3 0 "1year" None fetched_world).1 = Ok 1 /\
  heap blockchain_world !! 0 <> heap fetched_world !! 0.
Proof.
  split; [|split; [|split]].
  - vm_compute. reflexivity.
  - intros H. apply (f_equal (fmap columns)) in H. vm_compute in H.
    discriminate.
  - vm_compute. reflexivity.
  - intros H.
    apply (f_equal (fun o : option DataFrame =>
                      match o with
                      | Some t => head (index t)
                      | None => None
                      end)) in H.
    vm_compute in H. discriminate.
Qed.

(** The heap after an in-place update of [data] and one allocation. *)
Lemma heap_updated_and_extended (h : list DataFrame) data d d' x :
  h !! data = Some d ->
  (<[data:=d']> h ++ [x]) !! data = Some d' /\
  h !! length h = None /\ length h <> data /\
  (<[data:=d']> h ++ [x]) !! length h = Some x /\
  (forall r0, r0 <> data -> r0 <> length h ->
              (<[data:=d']> h ++ [x]) !! r0 = h !! r0).
Proof.
  intros Hd. assert (data < length h) as Hlt by (by eapply lookup_lt_Some).
  split; [|split; [|split; [|split]]].
  - rewrite lookup_app_l by (rewrite length_insert; lia).
    by apply list_lookup_insert_eq.
  - by apply lookup_ge_None_2.
  - lia.
  - rewrite lookup_app_r by (rewrite length_insert; lia).
    rewrite length_insert. by replace (length h - length h) with 0 by lia.
  - intros r0 Hne1 Hne2. destruct (decide (r0 < length h)) as [Hr|Hr].
    + rewrite lookup_app_l by (rewrite length_insert; lia).
      by apply list_lookup_insert_ne.
    + rewrite (lookup_ge_None_2 h) by lia.
      apply lookup_ge_None_2. rewrite length_app, length_insert; simpl. lia.
Qed.

(** C4 (amended): the two stages of the builder do change the table the
    caller passes, and return a table that is a new object. After
    [add_all_technical_indicators] the caller's table has the same index, all
    its former columns and the indicator columns; after [add_blockchain_data]
    it has the same columns and cells, its index turned into dates. In both
    cases the returned reference is new, differs from the caller's, holds the
    cleaned table, and every other object is untouched. *)
Theorem stages_update_caller_and_return_new_table
    (ta : ta_library) (api : blockchain_api)
    (data1 r1 : ref) (w1 w1' : world)
    (data2 r2 : ref) (timespan : string) (start : option string)
    (w2 w2' : world) :
  add_all_technical_indicators ta data1 w1 = (Ok r1, w1') ->
  add_blockchain_data api data2 timespan start w2 = (Ok r2, w2') ->
  (exists d d',
      heap w1 !! data1 = Some d /\ heap w1' !! data1 = Some d' /\
      extends d d' /\ Forall (fun c => c ∈ columns d') indicator_columns /\
      (wf d ->
       forall c, c ∉ indicator_columns ->
                 Pandas.getitem c d' = Pandas.getitem c d) /\
      heap w1 !! r1 = None /\ r1 <> data1 /\
      heap w1' !! r1 = Some (clean d') /\
      (forall r0, r0 <> data1 -> r0 <> r1 -> heap w1' !! r0 = heap w1 !! r0)) /\
  (exists d dated merged,
      heap w2 !! data2 = Some d /\ heap w2' !! data2 = Some dated /\
      index dated = map Pandas.date_of (index d) /\
      columns dated = columns d /\ (rows dated).*2 = (rows d).*2 /\
      merge_blockchain_data dated
        (get_hash_rate_over_time api timespan start)
        (get_avg_block_size api timespan start)
        (get_network_difficulty api timespan start)
        (get_miners_revenue api timespan start)
        (get_mempool_size api timespan start) = Ok merged /\
      heap w2 !! r2 = None /\ r2 <> data2 /\
      heap w2' !! r2 = Some (clean merged) /\
      (forall r0, r0 <> data2 -> r0 <> r2 -> heap w2' !! r0 = heap w2 !! r0)).
Proof.
  intros H1 H2. split.
  - apply add_all_technical_indicators_run in H1
      as (d & d' & Hd & Hext & Hcols & Hframe & -> & ->).
    destruct (heap_updated_and_extended (heap w1) data1 d d' (clean d') Hd)
      as (? & ? & ? & ? & ?).
    exists d, d'. simpl.
    assert (wf d ->
            forall c, c ∉ indicator_columns ->
                      Pandas.getitem c d' = Pandas.getitem c d) as Hsame.
    { intros Hwf. by destruct (Hframe Hwf). }
    done.
  - apply add_blockchain_data_run in H2
      as (d & dated & merged & Hd & Hidx & Hc & Hcells & Hm & -> & ->).
    destruct (heap_updated_and_extended (heap w2) data2 d dated (clean merged) Hd)
      as (? & ? & ? & ? & ?).
    exists d, dated, merged. simpl.
    assert (index dated = map Pandas.date_of (index d)) as Hdates.
    { unfold Pandas.index_date in Hidx.
      destruct (forallb is_timestamp (index d)); [|done]. by injection Hidx. }
    done.
Qed.

Lemma stages_update_caller_and_return_new_table_witness :
  (exists d d',
      heap closes_world !! 0 = Some d /\ heap indicators_world !! 0 = Some d' /\
      extends d d' /\ Forall (fun c => c ∈ columns d') indicator_columns /\
      (wf d ->
       forall c, c ∉ indicator_columns ->
                 Pandas.getitem c d' = Pandas.getitem c d) /\
      heap closes_world !! 1 = None /\ 1 <> 0 /\
      heap indicators_world !! 1 = Some (clean d') /\
      (forall r0, r0 <> 0 -> r0 <> 1 ->
                  heap indicators_world !! r0 = heap closes_world !! r0)) /\
  (exists d dated merged,
      heap fetched_world !! 0 = Some d /\
      heap blockchain_world !! 0 = Some dated /\
      index dated = map Pandas.date_of (index d) /\
      columns dated = columns d /\ (rows dated).*2 = (rows d).*2 /\
      merge_blockchain_data dated
        (get_hash_rate_over_time api_3 "1year" None)
        (get_avg_block_size api_3 "1year" None)
        (get_network_difficulty api_3 "1year" None)
        (get_miners_revenue api_3 "1year" None)
        (get_mempool_size api_3 "1year" None) = Ok merged /\
      heap fetched_world !! 1 = None /\ 1 <> 0 /\
      heap blockchain_world !! 1 = Some (clean merged) /\
      (forall r0, r0 <> 0 -> r0 <> 1 ->
                  heap blockchain_world !! r0 = heap fetched_world !! r0)).
Proof.
  apply (stages_update_caller_and_return_new_table ta_close api_3
           0 1 closes_world indicators_world
           0 1 "1year" None fetched_world blockchain_world).
  - vm_compute. reflexivity.
  - vm_compute. reflexivity.
Defined.

(** ** Attaching the window features *)

Section Attach.
Import Pandas.

Lemma slice_window_index {A} (L : Z) (l : list A) :
  (1 <= L <= Z.of_nat (length l))%Z ->
  slice (L - 1) (-1) l
  = take (length l - Z.to_nat L) (drop (Z.to_nat (L - 1)) l).
Proof.
  intros HL. unfold slice, slice_bound.
  destruct (Z.ltb_spec (L - 1) 0) as [?|_]; [lia|].
  destruct (Z.ltb_spec (-1) 0) as [_|?]; [|lia].
  f_equal; [lia|]. f_equal. lia.
Qed.

Lemma length_slice_window_index {A} (L : Z) (l : list A) :
  (1 <= L <= Z.of_nat (length l))%Z ->
  length (slice (L - 1) (-1) l) = length l - Z.to_nat L.
Proof.
  intros HL. rewrite slice_window_index by done.
  rewrite length_take, length_drop. lia.
Qed.

Lemma lookup_slice_window_index {A} (L : Z) (l : list A) i :
  (1 <= L <= Z.of_nat (length l))%Z -> i < length l - Z.to_nat L ->
  slice (L - 1) (-1) l !! i = l !! (Z.to_nat (L - 1) + i).
Proof.
  intros HL Hi. rewrite slice_window_index by done.
  rewrite lookup_take_lt by done. by rewrite lookup_drop.
Qed.

Lemma imap_zip_labels (labels : list label) (vals : list cell)
    (g : nat -> cell -> label * list cell) :
  (forall i v, (g i v).2 = [v]) ->
  zip_with (fun l r => (l, r.2)) labels (imap g vals)
  = zip_with (fun l v => (l, [v])) labels vals.
Proof.
  intros Hg. revert labels g Hg.
  induction vals as [|v vals IH]; intros [|l labels] g Hg; simpl; try done.
  rewrite Hg. f_equal. apply IH. intros i v'. apply Hg.
Qed.

(** The frame of the features once it is indexed. *)
Lemma set_index_features (labels : list label) (vals : list cell) :
  set_index labels (DataFrame_of_column "lstm_feature" vals)
  = if bool_decide (length labels = length vals)
    then Ok (mkDF ["lstm_feature"] (zip_with (fun l v => (l, [v])) labels vals))
    else Raise ValueError.
Proof.
  unfold set_index, DataFrame_of_column, nrows; simpl.
  rewrite length_imap. case_bool_decide; [|done].
  f_equal. f_equal. by apply imap_zip_labels.
Qed.

Lemma row_or_nan_lookup (df : DataFrame) r l cells :
  NoDup (index df) -> rows df !! r = Some (l, cells) ->
  row_or_nan l df = cells.
Proof.
  intros Hnd Hr. unfold row_or_nan.
  destruct (list_find (fun x => x.1 = l) (rows df)) as [[i x]|] eqn:E.
  - apply list_find_Some in E as (Hi & Hx & _).
    assert (i = r) as ->.
    { eapply NoDup_lookup; [exact Hnd| |].
      - unfold index. rewrite list_lookup_fmap, Hi. simpl. by rewrite Hx.
      - unfold index. by rewrite list_lookup_fmap, Hr. }
    rewrite Hr in Hi. by injection Hi as <-.
  - apply list_find_None in E. rewrite Forall_forall in E.
    exfalso. apply (E (l, cells)); [|done]. by eapply list_elem_of_lookup_2.
Qed.

Lemma row_or_nan_absent (df : DataFrame) l :
  l ∉ index df -> row_or_nan l df = replicate (ncols df) None.
Proof.
  intros Hl. unfold row_or_nan.
  destruct (list_find (fun x => x.1 = l) (rows df)) as [[i x]|] eqn:E; [|done].
  apply list_find_Some in E as (Hi & Hx & _). exfalso. apply Hl.
  unfold index. apply list_elem_of_fmap. exists x. split; [done|].
  by eapply list_elem_of_lookup_2.
Qed.

End Attach.

Section AttachFeatures.
Import Pandas.

Lemma fst_zip_with_labels (labels : list label) (vals : list cell) :
  length labels = length vals ->
  (zip_with (fun l v => (l, [v])) labels vals).*1 = labels.
Proof.
  revert vals. induction labels as [|l ls IH]; intros [|v vs] ?;
    simplify_eq/=; [done|]. f_equal. by apply IH.
Qed.

(** Lines 150-156 on a table with distinct labels, for a window length
    between 1 and the number of rows and one mean per window. *)
Lemma attach_features_ok (d : DataFrame) (L : Z) (fm : list cell) :
  NoDup (index d) -> (1 <= L <= Z.of_nat (nrows d))%Z ->
  length fm = nrows d - Z.to_nat L ->
  attach_features d L fm
  = Ok (mkDF (columns d ++ ["lstm_feature"])
          (imap (fun r x => (x.1, x.2 ++ [window_feature L (nrows d) fm r]))
                (rows d))).
Proof.
  intros Hnd HL Hfm.
  assert (length (index d) = nrows d) as Hidx.
  { unfold index, nrows. by rewrite length_fmap. }
  set (labels := slice (L - 1) (-1) (index d)).
  assert (length labels = length fm) as Hlab.
  { unfold labels. rewrite length_slice_window_index by (rewrite Hidx; lia).
    lia. }
  unfold attach_features. fold labels.
  rewrite set_index_features, bool_decide_eq_true_2 by done.
  unfold rbind, concat_axis1.
  set (f := mkDF ["lstm_feature"] (zip_with (fun l v => (l, [v])) labels fm)).
  assert (index f = labels) as Hf by (by apply fst_zip_with_labels).
  assert (labels `sublist_of` index d) as Hsub.
  { unfold labels. rewrite slice_window_index by (rewrite Hidx; lia).
    etrans; [apply sublist_take | apply sublist_drop]. }
  rewrite bool_decide_eq_false_2.
  2:{ rewrite Hf. intros Heq. apply (f_equal length) in Heq. lia. }
  rewrite bool_decide_eq_true_2.
  2:{ split; [done|]. rewrite Hf. by eapply sublist_NoDup. }
  f_equal. f_equal.
  assert (filter (fun l => l ∉ index d) (index f) = []) as ->.
  { apply elem_of_nil_inv. intros l Hl.
    apply list_elem_of_filter in Hl as [Hl1 Hl2]. apply Hl1.
    rewrite Hf in Hl2. by eapply elem_of_sublist. }
  rewrite app_nil_r. apply list_eq. intros r.
  rewrite list_lookup_fmap, list_lookup_imap. unfold index at 1.
  rewrite list_lookup_fmap.
  destruct (rows d !! r) as [[l cells]|] eqn:Hr; [|done]. simpl.
  f_equal. f_equal. rewrite (row_or_nan_lookup d r l cells Hnd Hr). f_equal.
  assert (r < nrows d) as Hrlt by (by eapply lookup_lt_Some).
  assert (index d !! r = Some l) as Hir.
  { unfold index. by rewrite list_lookup_fmap, Hr. }
  unfold window_feature. case_bool_decide as Hrange.
  - set (i := r - Z.to_nat (L - 1)).
    assert (i < length fm) as Hi by (unfold i; lia).
    destruct (lookup_lt_is_Some_2 fm i Hi) as [v Hv]. rewrite Hv. simpl.
    apply (row_or_nan_lookup f i).
    + rewrite Hf. by eapply sublist_NoDup.
    + simpl. apply lookup_zip_with_Some. exists l, v. split; [done|].
      split; [|done]. unfold labels.
      rewrite lookup_slice_window_index by (rewrite ?Hidx; lia).
      rewrite <- Hir. f_equal. unfold i. lia.
  - rewrite row_or_nan_absent; [done|].
    rewrite Hf. intros Hin. apply list_elem_of_lookup in Hin as [i Hi].
    assert (i < length labels) as Hilt by (by eapply lookup_lt_Some).
    unfold labels in Hi.
    rewrite lookup_slice_window_index in Hi by (rewrite ?Hidx; lia).
    assert (Z.to_nat (L - 1) + i = r) by (by eapply NoDup_lookup).
    lia.
Qed.

(** The reindexing fails when the number of means is not the number of
    labels of [index[L - 1 : -1]]. *)
Lemma attach_features_mismatch (d : DataFrame) (L : Z) (fm : list cell) :
  length (slice (L - 1) (-1) (index d)) <> length fm ->
  attach_features d L fm = Raise ValueError.
Proof.
  intros Hne. unfold attach_features.
  by rewrite set_index_features, bool_decide_eq_false_2.
Qed.

End AttachFeatures.

(** ** [extract_lstm_features] *)

Lemma extract_lstm_features_run lstm df L w d X :
  heap w !! df = Some d -> create_sequences lstm d L = Ok X ->
  extract_lstm_features lstm df L w
  = match attach_features d L (features_mean_of lstm d L X) with
    | Ok out =>
        (Ok (length (heap w)), mkWorld (heap w ++ [out]) (epochs_run w + 10))
    | Raise e => (Raise e, mkWorld (heap w) (epochs_run w + 10))
    end.
Proof.
  intros Hd HX. unfold extract_lstm_features.
  rewrite run_bind, (run_deref _ _ _ Hd), run_bind. unfold lift at 1.
  rewrite HX, run_bind. unfold run_epochs at 1. rewrite run_bind.
  unfold lift, features_mean_of.
  by destruct (attach_features d L _).
Qed.

Lemma extract_lstm_features_rejected lstm df L w d e :
  heap w !! df = Some d -> create_sequences lstm d L = Raise e ->
  extract_lstm_features lstm df L w = (Raise e, w).
Proof.
  intros Hd HX. unfold extract_lstm_features.
  rewrite run_bind, (run_deref _ _ _ Hd), run_bind. unfold lift at 1.
  by rewrite HX.
Qed.

Lemma window_feature_inside L N fm r :
  Z.to_nat (L - 1) <= r < N - 1 ->
  window_feature L N fm r = default None (fm !! (r - Z.to_nat (L - 1))).
Proof. intros H. unfold window_feature. by rewrite bool_decide_eq_true_2. Qed.

Lemma window_feature_outside L N fm r :
  r < Z.to_nat (L - 1) \/ N - 1 <= r -> window_feature L N fm r = None.
Proof.
  intros H. unfold window_feature. rewrite bool_decide_eq_false_2; [done|lia].
Qed.

(** C5: with the windower of the specification, a window length that is at
    least the number of rows makes [extract_lstm_features] raise a
    configuration error, whatever the model is; the state is left as it was,
    so no training epoch has been run and no table has been created. *)
Theorem window_length_rejected_before_training
    (model : Type) (build : Z * nat -> model)
    (train : model -> list window -> nat -> model)
    (predict : model -> list window -> list window)
    (df : ref) (L : Z) (w : world) (d : DataFrame) :
  heap w !! df = Some d -> (Z.of_nat (nrows d) <= L)%Z ->
  extract_lstm_features (spec_lstm model build train predict) df L w
  = (Raise ConfigurationError, w) /\
  epochs_run (extract_lstm_features
                (spec_lstm model build train predict) df L w).2
  = epochs_run w.
Proof.
  intros Hd HL.
  assert (create_sequences (spec_lstm model build train predict) d L
          = Raise ConfigurationError) as Hrej.
  { simpl. unfold create_sequences_spec.
    destruct (Z.leb_spec (Z.of_nat (nrows d)) L); [done|lia]. }
  rewrite (extract_lstm_features_rejected _ _ _ _ _ _ Hd Hrej). done.
Qed.

Lemma window_length_rejected_before_training_witness :
  extract_lstm_features lstm_id 0 3 closes_world
  = (Raise ConfigurationError, closes_world) /\
  epochs_run (extract_lstm_features lstm_id 0 3 closes_world).2
  = epochs_run closes_world.
Proof.
  apply (window_length_rejected_before_training unit (fun _ => tt)
           (fun m _ _ => m) (fun _ X => X) 0 3 closes_world closes_table).
  - reflexivity.
  - vm_compute. discriminate.
Defined.

(** C10, as stated, fails. With a window length of 0 the windower of the
    specification and a model with one output per window yield the
    [N - L = 3] outputs of the precondition, and the reindexing raises. With
    a window length of 5 on 3 rows and no output at all, the count differs
    from [N - L] and the reindexing succeeds. With a repeated label the
    concatenation raises although the count is [N - L]. *)
Lemma lstm_feature_frame_fails :
  length (features_mean_of lstm_id closes_table 0
            [[]; []; []]) = 3 /\
  create_sequences lstm_id closes_table 0 = Ok [[]; []; []] /\
  (extract_lstm_features lstm_id 0 0 closes_world).1 = Raise ValueError /\
  length (features_mean_of lstm_none closes_table 5 []) = 0 /\
  (extract_lstm_features lstm_none 0 5 closes_world).1 = Ok 1 /\
  length (features_mean_of lstm_id repeated_label_table 1
            [[[Some 1%Q]]; [[Some 2%Q]]]) = 2 /\
  create_sequences lstm_id repeated_label_table 1
  = Ok [[[Some 1%Q]]; [[Some 2%Q]]] /\
  (extract_lstm_features lstm_id 0 1 (mkWorld [repeated_label_table] 0)).1
  = Raise InvalidIndexError.
Proof. repeat split; vm_compute; reflexivity. Qed.

(** C10 (amended): for a table [d] of [N] rows with distinct index labels and
    a window length [1 <= L <= N]: when sequence creation and prediction yield
    exactly [N - L] per-window outputs, [extract_lstm_features] returns a new
    table, leaving [d] as it was, with the same index, the columns of [d]
    followed by [lstm_feature], every row holding its former cells followed by
    the mean of window [r - (L - 1)] on the rows [L - 1 .. N - 2] and by an
    undefined value on the first [L - 1] rows and on the last row; when the
    number of outputs differs from [N - L], the reindexing raises a value
    error, after the ten training epochs have run. *)
Theorem lstm_feature_column_frame
    (lstm : lstm_library) (df : ref) (L : Z) (w : world) (d : DataFrame)
    (X : list window) :
  heap w !! df = Some d -> NoDup (index d) ->
  (1 <= L <= Z.of_nat (nrows d))%Z ->
  create_sequences lstm d L = Ok X ->
  let fm := features_mean_of lstm d L X in
  (length fm = nrows d - Z.to_nat L ->
   exists out,
     extract_lstm_features lstm df L w
     = (Ok (length (heap w)),
        mkWorld (heap w ++ [out]) (epochs_run w + 10)) /\
     (heap w ++ [out]) !! df = Some d /\
     columns out = columns d ++ ["lstm_feature"] /\
     index out = index d /\
     (forall r l cells,
         rows d !! r = Some (l, cells) ->
         rows out !! r = Some (l, cells ++ [window_feature L (nrows d) fm r])) /\
     (forall r, r < Z.to_nat (L - 1) \/ r = nrows d - 1 ->
                window_feature L (nrows d) fm r = None) /\
     (forall r, Z.to_nat (L - 1) <= r < nrows d - 1 ->
                exists v, fm !! (r - Z.to_nat (L - 1)) = Some v /\
                          window_feature L (nrows d) fm r = v)) /\
  (length fm <> nrows d - Z.to_nat L ->
   extract_lstm_features lstm df L w
   = (Raise ValueError, mkWorld (heap w) (epochs_run w + 10))).
Proof.
  intros Hd Hnd HL HX fm.
  rewrite (extract_lstm_features_run _ _ _ _ _ _ Hd HX). fold fm. split.
  - intros Hfm. rewrite (attach_features_ok d L fm Hnd HL Hfm).
    eexists. split; [done|]. split; [|split; [done|split; [|split; [|split]]]].
    + rewrite lookup_app_l by (by eapply lookup_lt_Some). done.
    + unfold index; simpl. apply list_eq. intros r.
      rewrite !list_lookup_fmap, list_lookup_imap.
      by destruct (rows d !! r).
    + intros r l cells Hr. simpl. by rewrite list_lookup_imap, Hr.
    + intros r Hr. apply window_feature_outside. lia.
    + intros r Hr. rewrite window_feature_inside by done.
      destruct (lookup_lt_is_Some_2 fm (r - Z.to_nat (L - 1))) as [v Hv];
        [lia|].
      exists v. by rewrite Hv.
  - intros Hfm. rewrite attach_features_mismatch; [done|].
    rewrite length_slice_window_index.
    + unfold index. rewrite length_fmap. fold (nrows d). lia.
    + unfold index. rewrite length_fmap. done.
Qed.

Lemma lstm_feature_column_frame_witness :
  let fm := features_mean_of lstm_id closes_table 2
              [[[Some 10%Q]; [Some 12%Q]]] in
  (length fm = nrows closes_table - Z.to_nat 2 ->
   exists out,
     extract_lstm_features lstm_id 0 2 closes_world
     = (Ok (length (heap closes_world)),
        mkWorld (heap closes_world ++ [out]) (epochs_run closes_world + 10)) /\
     (heap closes_world ++ [out]) !! 0 = Some closes_table /\
     columns out = columns closes_table ++ ["lstm_feature"] /\
     index out = index closes_table /\
     (forall r l cells,
         rows closes_table !! r = Some (l, cells) ->
         rows out !! r
         = Some (l, cells ++ [window_feature 2 (nrows closes_table) fm r])) /\
     (forall r, r < Z.to_nat (2 - 1) \/ r = nrows closes_table - 1 ->
                window_feature 2 (nrows closes_table) fm r = None) /\
     (forall r, Z.to_nat (2 - 1) <= r < nrows closes_table - 1 ->
                exists v, fm !! (r - Z.to_nat (2 - 1)) = Some v /\
                          window_feature 2 (nrows closes_table) fm r = v)) /\
  (length fm <> nrows closes_table - Z.to_nat 2 ->
   extract_lstm_features lstm_id 0 2 closes_world
   = (Raise ValueError,
      mkWorld (heap closes_world) (epochs_run closes_world + 10))).
Proof.
  apply (lstm_feature_column_frame lstm_id 0 2 closes_world closes_table
           [[[Some 10%Q]; [Some 12%Q]]]).
  - reflexivity.
  - apply (bool_decide_unpack _). vm_compute. reflexivity.
  - vm_compute. split; discriminate.
  - reflexivity.
Defined.

(** A window length of 0 is no window: on the three closes of Example 4 the
    windower yields three empty windows, the model one output per window, and
    feature extraction raises, there being three scalars for the two rows
    [0 .. N - 2]. *)
Lemma zero_window_length_not_attached :
  (0 < Z.of_nat (nrows closes_table))%Z /\
  create_sequences_spec closes_table 0 = Ok [[]; []; []] /\
  length (features_mean_of lstm_id closes_table 0 [[]; []; []]) = 3 /\
  extract_lstm_features lstm_id 0 0 closes_world
  = (Raise ValueError, mkWorld [closes_table] 10).
Proof. repeat split; vm_compute; reflexivity. Qed.

(** C2: for a consolidated table of [N] rows, one row per timestamp, and a
    window length [1 <= L < N], with the windower of the specification and a
    model giving one output per window: there are exactly [N - L] windows and
    [N - L] per-window scalars, window [i] covers the rows [[i, i + L)] and its
    last row is table row [i + L - 1]; the scalar of window [i] is attached to
    that row, so the feature at row [r >= L - 1] is that of window
    [r - (L - 1)], on the rows [L - 1 .. N - 2]; the first [L - 1] rows and the
    last row lack the feature. *)
Theorem window_scalars_attached_to_last_rows
    (model : Type) (build : Z * nat -> model)
    (train : model -> list window -> nat -> model)
    (predict : model -> list window -> list window)
    (df : ref) (L : Z) (w : world) (d : DataFrame) :
  heap w !! df = Some d -> NoDup (index d) ->
  (1 <= L < Z.of_nat (nrows d))%Z ->
  (forall m X, length (predict m X) = length X) ->
  let lstm := spec_lstm model build train predict in
  exists X out,
    create_sequences lstm d L = Ok X /\
    length X = nrows d - Z.to_nat L /\
    (forall i, i < nrows d - Z.to_nat L ->
               X !! i = Some ((take (Z.to_nat L) (drop i (rows d))).*2) /\
               last (take (Z.to_nat L) (drop i (rows d)))
               = rows d !! (i + Z.to_nat L - 1)) /\
    length (features_mean_of lstm d L X) = nrows d - Z.to_nat L /\
    extract_lstm_features lstm df L w
    = (Ok (length (heap w)), mkWorld (heap w ++ [out]) (epochs_run w + 10)) /\
    index out = index d /\
    (forall i, i < nrows d - Z.to_nat L ->
               exists l cells v,
                 rows d !! (i + Z.to_nat L - 1) = Some (l, cells) /\
                 features_mean_of lstm d L X !! i = Some v /\
                 rows out !! (i + Z.to_nat L - 1) = Some (l, cells ++ [v])) /\
    (forall r l cells,
        r < Z.to_nat L - 1 \/ r = nrows d - 1 ->
        rows d !! r = Some (l, cells) ->
        rows out !! r = Some (l, cells ++ [None])).
Proof.
  intros Hd Hnd HL Hpredict lstm.
  set (X := map (fun i => (take (Z.to_nat L) (drop i (rows d))).*2)
                (seq 0 (Z.to_nat (Z.of_nat (nrows d) - L)))).
  assert (create_sequences lstm d L = Ok X) as HX.
  { simpl. unfold create_sequences_spec.
    destruct (Z.leb_spec (Z.of_nat (nrows d)) L); [lia|done]. }
  assert (length X = nrows d - Z.to_nat L) as HlenX.
  { unfold X. rewrite length_map, length_seq. lia. }
  set (fm := features_mean_of lstm d L X).
  assert (length fm = nrows d - Z.to_nat L) as Hfm.
  { unfold fm, features_mean_of. rewrite length_map. simpl.
    by rewrite Hpredict. }
  assert (1 <= L <= Z.of_nat (nrows d))%Z as HL' by lia.
  eexists X, _. split; [done|]. split; [done|].
  split; [|split; [done|split; [|split; [|split]]]].
  - intros i Hi. split.
    + unfold X. rewrite list_lookup_fmap, lookup_seq_lt by lia. done.
    + rewrite last_lookup, length_take, length_drop.
      unfold nrows in *.
      replace (Init.Nat.pred (Z.to_nat L `min` (length (rows d) - i)))
        with (Z.to_nat L - 1) by lia.
      rewrite lookup_take_lt by lia. rewrite lookup_drop. f_equal. lia.
  - rewrite (extract_lstm_features_run _ _ _ _ _ _ Hd HX). fold fm.
    rewrite (attach_features_ok d L fm Hnd HL' Hfm). reflexivity.
  - unfold index; simpl. apply list_eq. intros r.
    rewrite !list_lookup_fmap, list_lookup_imap.
    by destruct (rows d !! r).
  - intros i Hi.
    destruct (lookup_lt_is_Some_2 (rows d) (i + Z.to_nat L - 1))
      as [[l cells] Hr]; [unfold nrows in *; lia|].
    destruct (lookup_lt_is_Some_2 fm i) as [v Hv]; [lia|].
    exists l, cells, v. split; [done|]. split; [done|].
    simpl. rewrite list_lookup_imap, Hr. simpl.
    rewrite window_feature_inside by lia.
    replace (i + Z.to_nat L - 1 - Z.to_nat (L - 1)) with i by lia.
    by rewrite Hv.
  - intros r l cells Hr Hrow. simpl. rewrite list_lookup_imap, Hrow. simpl.
    rewrite window_feature_outside by lia. done.
Qed.

Lemma window_scalars_attached_to_last_rows_witness :
  exists X out,
    create_sequences lstm_id closes_table 2 = Ok X /\
    length X = nrows closes_table - Z.to_nat 2 /\
    (forall i, i < nrows closes_table - Z.to_nat 2 ->
               X !! i
               = Some ((take (Z.to_nat 2) (drop i (rows closes_table))).*2) /\
               last (take (Z.to_nat 2) (drop i (rows closes_table)))
               = rows closes_table !! (i + Z.to_nat 2 - 1)) /\
    length (features_mean_of lstm_id closes_table 2 X)
    = nrows closes_table - Z.to_nat 2 /\
    extract_lstm_features lstm_id 0 2 closes_world
    = (Ok (length (heap closes_world)),
       mkWorld (heap closes_world ++ [out]) (epochs_run closes_world + 10)) /\
    index out = index closes_table /\
    (forall i, i < nrows closes_table - Z.to_nat 2 ->
               exists l cells v,
                 rows closes_table !! (i + Z.to_nat 2 - 1) = Some (l, cells) /\
                 features_mean_of lstm_id closes_table 2 X !! i = Some v /\
                 rows out !! (i + Z.to_nat 2 - 1) = Some (l, cells ++ [v])) /\
    (forall r l cells,
        r < Z.to_nat 2 - 1 \/ r = nrows closes_table - 1 ->
        rows closes_table !! r = Some (l, cells) ->
        rows out !! r = Some (l, cells ++ [None])).
Proof.
  apply (window_scalars_attached_to_last_rows unit (fun _ => tt)
           (fun m _ _ => m) (fun _ X => X) 0 2 closes_world closes_table).
  - reflexivity.
  - apply (bool_decide_unpack _). vm_compute. reflexivity.
  - vm_compute. split; [discriminate | reflexivity].
  - reflexivity.
Defined.

(** ** The examples of the specification, evaluated *)

(** Example 1: 100 daily rows and windows of 30 rows give exactly 70 windows;
    window 0 covers rows 0 to 29 and its scalar is attached to row 29. *)
Example seventy_windows_of_thirty_rows :
  (length <$> (match create_sequences_spec primary_100 30 with
               | Ok X => Some X
               | Raise _ => None
               end)) = Some 70 /\
  (match create_sequences_spec primary_100 30 with
   | Ok X => head X
   | Raise _ => None
   end) = Some ((take 30 (rows primary_100)).*2) /\
  window_feature 30 100 (replicate 70 (Some 1%Q)) 28 = None /\
  window_feature 30 100 (replicate 70 (Some 1%Q)) 29 = Some 1%Q /\
  window_feature 30 100 (replicate 70 (Some 1%Q)) 98 = Some 1%Q /\
  window_feature 30 100 (replicate 70 (Some 1%Q)) 99 = None.
Proof. repeat split; vm_compute; reflexivity. Qed.

(** The closes of Example 4 with windows of two rows and a model that
    reconstructs its input: one window, whose mean lands on the middle row. *)
Example closes_feature_on_middle_row :
  extract_lstm_features lstm_id 0 2 closes_world
  = (Ok 1, mkWorld [closes_table; closes_with_feature] 10).
Proof. vm_compute. reflexivity. Qed.

(** * Further properties of the code *)

(** ** The stages and the [Close] column *)

(** X1: a table without a [Close] column makes line 37 of [main] and
    [add_all_technical_indicators] raise [KeyError "Close"] at their first
    statement, before anything has been assigned: the state is unchanged. *)
Theorem stages_need_close_column (ta : ta_library) (df : ref) (w : world)
    (d : DataFrame) :
  heap w !! df = Some d -> "Close" ∉ columns d ->
  add_target df w = (Raise (KeyError "Close"), w) /\
  add_all_technical_indicators ta df w = (Raise (KeyError "Close"), w).
Proof.
  intros Hd Hc. apply col_index_None in Hc.
  assert (getitem_at df "Close" w = (Raise (KeyError "Close"), w)) as Hget.
  { rewrite (run_getitem_at _ _ _ _ Hd). unfold Pandas.getitem. by rewrite Hc. }
  split.
  - unfold add_target. by rewrite run_bind, Hget.
  - unfold add_all_technical_indicators. by rewrite run_bind, Hget.
Qed.

Lemma stages_need_close_column_witness :
  add_target 0 hash_rate_world = (Raise (KeyError "Close"), hash_rate_world) /\
  add_all_technical_indicators ta_close 0 hash_rate_world
  = (Raise (KeyError "Close"), hash_rate_world).
Proof.
  apply (stages_need_close_column ta_close 0 hash_rate_world hash_rate_3).
  - reflexivity.
  - apply (bool_decide_unpack _). vm_compute. reflexivity.
Defined.

(** Assigning to a column the values it holds changes nothing. *)
Lemma setitem_same c vals d :
  wf d -> Pandas.getitem c d = Ok vals -> Pandas.setitem c vals d = Ok d.
Proof.
  intros Hwf Hget. unfold Pandas.getitem in Hget. unfold Pandas.setitem.
  destruct (Pandas.col_index c (columns d)) as [j|] eqn:E; [|done].
  injection Hget as <-. unfold nrows.
  rewrite bool_decide_eq_true_2 by (by rewrite length_map).
  pose proof (col_index_Some _ _ _ E) as Hj. apply lookup_lt_Some in Hj.
  destruct d as [cols rs]. simpl in *. f_equal. f_equal.
  unfold wf, ncols in Hwf. simpl in Hwf.
  induction Hwf as [|r rs Hr _ IH]; [done|]. simpl. f_equal; [|done].
  destruct r as [l cells]. simpl in *. f_equal.
  destruct (lookup_lt_is_Some_2 cells j) as [v Hv]; [lia|].
  unfold Pandas.cell_at. rewrite Hv. simpl. by apply list_insert_id.
Qed.

(** X2: line 37 of [main] works in place and can be repeated. It replaces the
    table behind the reference, creating no object; the index and every
    column other than [target] keep their values; and running it a second
    time leaves the state as the first run left it. *)
Theorem add_target_in_place_idempotent (df : ref) (w : world) (d : DataFrame)
    (close : list cell) :
  heap w !! df = Some d -> wf d -> Pandas.getitem "Close" d = Ok close ->
  exists d',
    let w' := mkWorld (<[df:=d']> (heap w)) (epochs_run w) in
    add_target df w = (Ok tt, w') /\
    length (heap w') = length (heap w) /\
    index d' = index d /\
    (forall c, c <> "target" -> Pandas.getitem c d' = Pandas.getitem c d) /\
    add_target df w' = (Ok tt, w').
Proof.
  intros Hd Hwf Hclose.
  set (target := Pandas.astype_int
                   (Pandas.series_gt (Pandas.shift (-1) close) close)).
  assert (length target = nrows d) as Hlen.
  { unfold target, Pandas.astype_int, Pandas.series_gt.
    rewrite length_map, length_zip_with, shift_back_length.
    rewrite (getitem_length _ _ _ Hclose). lia. }
  destruct (getitem_setitem "target" target d Hwf Hlen)
    as (d' & Hset & Hget & Hwf' & Hidx & _).
  assert (forall c, c <> "target" -> Pandas.getitem c d' = Pandas.getitem c d)
    as Hframe.
  { intros c Hc. by apply (getitem_setitem_ne c "target" target d d'). }
  assert (forall w0 d0,
             heap w0 !! df = Some d0 -> Pandas.getitem "Close" d0 = Ok close ->
             Pandas.setitem "target" target d0 = Ok d' ->
             add_target df w0
             = (Ok tt, mkWorld (<[df:=d']> (heap w0)) (epochs_run w0))) as Hrun.
  { intros w0 d0 Hd0 Hc0 Hs0. unfold add_target.
    rewrite run_bind, (run_getitem_at _ _ _ _ Hd0), Hc0.
    rewrite run_bind, (run_getitem_at _ _ _ _ Hd0), Hc0.
    by apply run_setitem_at with d0. }
  exists d'. cbn zeta. split; [by apply Hrun with d|].
  split; [simpl; by rewrite length_insert|]. split; [done|]. split; [done|].
  rewrite (Hrun _ d').
  - simpl. by rewrite list_insert_insert_eq.
  - simpl. by apply (heap_lookup_assigned _ _ d).
  - rewrite Hframe by done. done.
  - by apply setitem_same.
Qed.

Lemma add_target_in_place_idempotent_witness :
  exists d',
    let w' := mkWorld (<[0:=d']> (heap closes_world)) (epochs_run closes_world) in
    add_target 0 closes_world = (Ok tt, w') /\
    length (heap w') = length (heap closes_world) /\
    index d' = index closes_table /\
    (forall c, c <> "target" ->
               Pandas.getitem c d' = Pandas.getitem c closes_table) /\
    add_target 0 w' = (Ok tt, w').
Proof.
  apply (add_target_in_place_idempotent 0 closes_world closes_table
           [Some 10%Q; Some 12%Q; Some 11%Q]).
  - reflexivity.
  - repeat constructor.
  - reflexivity.
Defined.

(** ** The layout of the indicator columns *)

Lemma setitem_fresh c vals d d' :
  c ∉ columns d -> Pandas.setitem c vals d = Ok d' ->
  columns d' = columns d ++ [c].
Proof.
  intros Hc. apply col_index_None in Hc. unfold Pandas.setitem.
  case_bool_decide; [|done]. rewrite Hc. by intros [= <-].
Qed.

Lemma appending_start data w d :
  heap w !! data = Some d ->
  appending data (heap w) (epochs_run w) d [] d w.
Proof.
  intros Hd. split; [|by rewrite app_nil_r].
  rewrite list_insert_id by done. by destruct w.
Qed.

Lemma appending_lookup data h e d S d' w :
  data < length h -> appending data h e d S d' w -> heap w !! data = Some d'.
Proof. intros Hlt (-> & _). simpl. by apply list_lookup_insert_eq. Qed.

Lemma appending_setitem data h e d S d1 w1 c vals w2 :
  data < length h -> appending data h e d S d1 w1 ->
  c ∉ columns d -> c ∉ S ->
  setitem_at data c vals w1 = (Ok tt, w2) ->
  exists d2, appending data h e d (S ++ [c]) d2 w2.
Proof.
  intros Hlt Hinv Hc HS Hset.
  pose proof (appending_lookup _ _ _ _ _ _ _ Hlt Hinv) as Hd1.
  destruct Hinv as (-> & Hcols).
  apply setitem_at_Ok_inv in Hset as (d1' & d2 & Hd1' & Hset & ->).
  simpl in Hd1, Hd1'. rewrite Hd1 in Hd1'. injection Hd1' as <-.
  apply setitem_fresh in Hset.
  - exists d2. split.
    + simpl. by rewrite list_insert_insert_eq.
    + by rewrite Hset, Hcols, app_assoc.
  - rewrite Hcols. by apply not_elem_of_app.
Qed.

Lemma appending_getitem data h e d S d1 w1 c v w2 :
  appending data h e d S d1 w1 ->
  getitem_at data c w1 = (Ok v, w2) -> appending data h e d S d1 w2.
Proof. intros Hinv Hget. apply getitem_at_Ok_inv in Hget as ->. done. Qed.

Lemma appending_deref data h e d S d1 w1 d1' w2 :
  appending data h e d S d1 w1 ->
  deref data w1 = (Ok d1', w2) -> appending data h e d S d1 w2.
Proof. intros Hinv Hget. apply deref_Ok_inv in Hget as [_ ->]. done. Qed.

(** One statement of [add_all_technical_indicators] on a table that has none
    of the indicator columns yet. *)
Ltac appending_step H Hinv Hlt Hfresh :=
  let a := fresh "a" in
  let w1 := fresh "w" in
  let Hstep := fresh "Hstep" in
  apply bind_Ok_inv in H as (a & w1 & Hstep & H);
  first
    [ apply (appending_getitem _ _ _ _ _ _ _ _ _ _ Hinv) in Hstep;
      clear Hinv; rename Hstep into Hinv
    | apply (appending_deref _ _ _ _ _ _ _ _ _ Hinv) in Hstep;
      clear Hinv; rename Hstep into Hinv
    | destruct a;
      lazymatch type of Hstep with
      | setitem_at _ ?c _ _ = _ =>
          lazymatch type of Hinv with
          | appending _ _ _ ?d ?S _ _ =>
              let Hc := fresh "Hc" in
              let HS := fresh "HS" in
              assert (c ∉ columns d) as Hc
                by (apply Hfresh, (bool_decide_unpack _); vm_compute;
                    reflexivity);
              assert (c ∉ S) as HS
                by (apply (bool_decide_unpack _); vm_compute; reflexivity);
              apply (appending_setitem _ _ _ _ _ _ _ _ _ _ Hlt Hinv Hc HS)
                in Hstep as [? Hstep];
              clear Hinv Hc HS; rename Hstep into Hinv
          end
      end ];
  repeat match type of H with
         | context [let '(_, _) := ?p in _] => destruct p as [? ?]
         end.

(** X3: on a table that has none of the fifteen indicator columns,
    [add_all_technical_indicators] appends them after the table's own
    columns, in the order of the assignments of lines 106-117; the table it
    returns has the same columns in the same order. *)
Theorem indicator_columns_appended_in_order
    (ta : ta_library) (data r : ref) (w w' : world) (d : DataFrame) :
  add_all_technical_indicators ta data w = (Ok r, w') ->
  heap w !! data = Some d ->
  Forall (fun c => c ∉ columns d) indicator_columns ->
  exists d' t,
    heap w' !! data = Some d' /\
    columns d' = columns d ++ indicator_columns /\
    heap w' !! r = Some t /\
    columns t = columns d ++ indicator_columns.
Proof.
  unfold add_all_technical_indicators. intros H Hd Hfresh.
  rewrite Forall_forall in Hfresh.
  apply bind_Ok_inv in H as (close & w1 & Hg & H).
  apply getitem_at_Ok_inv in Hg as ->.
  pose proof (appending_start _ _ _ Hd) as Hinv.
  assert (data < length (heap w)) as Hlt by (by eapply lookup_lt_Some).
  destruct (calculate_bollinger_bands ta close) as [[? ?] ?].
  do 24 (appending_step H Hinv Hlt Hfresh).
  unfold clean_data in H.
  apply bind_Ok_inv in H as (d' & wd & Hderef & H).
  pose proof (appending_lookup _ _ _ _ _ _ _ Hlt Hinv) as Hd'.
  apply deref_Ok_inv in Hderef as [Hd'' ->]. rewrite Hd' in Hd''.
  injection Hd'' as <-.
  destruct Hinv as (-> & Hcols).
  unfold alloc in H. simpl in H. injection H as <- <-.
  eexists _, _. simpl. split; [|split; [exact Hcols|split]].
  - rewrite lookup_app_l by (by rewrite length_insert).
    by apply list_lookup_insert_eq.
  - rewrite lookup_app_r by (by rewrite length_insert).
    rewrite length_insert. by replace (length (heap w) - length (heap w)) with 0 by lia.
  - exact Hcols.
Qed.

Lemma indicator_columns_appended_in_order_witness :
  exists d' t,
    heap indicators_world !! 0 = Some d' /\
    columns d' = columns closes_table ++ indicator_columns /\
    heap indicators_world !! 1 = Some t /\
    columns t = columns closes_table ++ indicator_columns.
Proof.
  apply (indicator_columns_appended_in_order ta_close 0 1 closes_world
           indicators_world closes_table).
  - vm_compute. reflexivity.
  - reflexivity.
  - apply (bool_decide_unpack _). vm_compute. reflexivity.
Defined.

(** ** [add_blockchain_data] and the index of its argument *)

(** The table [d] with its timestamps turned into dates. *)
Lemma set_index_dates (d : DataFrame) :
  Pandas.set_index (map Pandas.date_of (index d)) d
  = Ok (mkDF (columns d) (map (fun r => (Pandas.date_of r.1, r.2)) (rows d))).
Proof.
  unfold Pandas.set_index, index, nrows.
  rewrite bool_decide_eq_true_2 by (by rewrite length_map, length_fmap).
  f_equal. f_equal. induction (rows d) as [|r rs IH]; [done|].
  simpl. by f_equal.
Qed.

Lemma forallb_is_timestamp_dates (ls : list label) :
  ls <> [] -> (forall l, l ∈ ls -> is_timestamp l = false) ->
  forallb is_timestamp ls = false.
Proof.
  destruct ls as [|l ls]; [done|]. intros _ H. simpl.
  rewrite (H l) by left. done.
Qed.

Lemma is_timestamp_date_of (ls : list label) l :
  forallb is_timestamp ls = true -> l ∈ map Pandas.date_of ls ->
  is_timestamp l = false.
Proof.
  intros Hts Hl. apply list_elem_of_fmap in Hl as (l0 & -> & Hl0).
  rewrite forallb_forall in Hts. apply list_elem_of_In, Hts in Hl0.
  by destruct l0.
Qed.

(** A table whose index does not hold timestamps only is refused at line 69,
    before anything is assigned. *)
Lemma add_blockchain_data_refused api data timespan start w d :
  heap w !! data = Some d -> forallb is_timestamp (index d) = false ->
  add_blockchain_data api data timespan start w = (Raise AttributeError, w).
Proof.
  intros Hd Hts. unfold add_blockchain_data.
  rewrite run_bind, (run_deref _ _ _ Hd), run_bind.
  unfold lift at 1, Pandas.index_date. by rewrite Hts.
Qed.

(** X4: [add_blockchain_data] cannot be applied a second time to the same
    table. Once it has succeeded on a table that has rows, the index of the
    caller's table holds dates: a further call on it, whatever the fetches,
    raises [AttributeError] at line 69 and leaves the state as it is. *)
Theorem add_blockchain_data_not_repeatable
    (api api' : blockchain_api) (data r : ref)
    (timespan timespan' : string) (start start' : option string)
    (w w' : world) (d : DataFrame) :
  add_blockchain_data api data timespan start w = (Ok r, w') ->
  heap w !! data = Some d -> rows d <> [] ->
  add_blockchain_data api' data timespan' start' w'
  = (Raise AttributeError, w').
Proof.
  intros Hrun Hd Hrows.
  apply add_blockchain_data_run in Hrun
    as (d0 & dated & merged & Hd0 & Hidx & Hc & Hcells & Hm & -> & ->).
  rewrite Hd in Hd0. injection Hd0 as <-.
  unfold Pandas.index_date in Hidx.
  destruct (forallb is_timestamp (index d)) eqn:Hts; [|done].
  injection Hidx as Hidx.
  destruct (heap_updated_and_extended (heap w) data d dated (clean merged) Hd)
    as (Hdata & _ & _ & Hr & _).
  apply add_blockchain_data_refused with dated; [done|].
  apply forallb_is_timestamp_dates.
  - rewrite <- Hidx. unfold index. destruct (rows d); [done|]. done.
  - intros l Hl. rewrite <- Hidx in Hl. by eapply is_timestamp_date_of.
Qed.

Lemma add_blockchain_data_not_repeatable_witness :
  add_blockchain_data api_3 0 "3years" None blockchain_world
  = (Raise AttributeError, blockchain_world).
Proof.
  apply (add_blockchain_data_not_repeatable api_3 api_3 0 1 "1year" "3years"
           None None fetched_world blockchain_world fetched_100).
  - vm_compute. reflexivity.
  - reflexivity.
  - vm_compute. discriminate.
Defined.

(** Line 84 raising after line 69 has run. *)
Lemma add_blockchain_data_resample_fails api data timespan start w d :
  heap w !! data = Some d ->
  forallb is_timestamp (index d) = true ->
  forallb is_timestamp (index (get_mempool_size api timespan start)) = false ->
  add_blockchain_data api data timespan start w
  = (Raise TypeError,
     mkWorld
       (<[data:=mkDF (columns d)
                  (map (fun r => (Pandas.date_of r.1, r.2)) (rows d))]> (heap w))
       (epochs_run w)).
Proof.
  intros Hd Hts Hmp. unfold add_blockchain_data.
  rewrite run_bind, (run_deref _ _ _ Hd), run_bind.
  unfold lift at 1, Pandas.index_date. rewrite Hts.
  rewrite run_bind. unfold lift at 1. rewrite set_index_dates.
  rewrite run_bind. unfold assign at 1. rewrite run_bind.
  unfold lift, merge_blockchain_data, Pandas.resample_D_mean.
  by rewrite Hmp.
Qed.

(** X5: when the mempool series is not indexed by timestamps, the resampling
    of line 84 raises [TypeError] after line 69 has run: no table is created,
    and the caller's table is left with its index turned into dates. *)
Theorem add_blockchain_data_fails_after_reindexing
    (api : blockchain_api) (data : ref) (timespan : string)
    (start : option string) (w : world) (d : DataFrame) :
  heap w !! data = Some d ->
  forallb is_timestamp (index d) = true ->
  forallb is_timestamp (index (get_mempool_size api timespan start)) = false ->
  add_blockchain_data api data timespan start w
  = (Raise TypeError,
     mkWorld
       (<[data:=mkDF (columns d)
                  (map (fun r => (Pandas.date_of r.1, r.2)) (rows d))]> (heap w))
       (epochs_run w)).
Proof. apply add_blockchain_data_resample_fails. Qed.

Lemma add_blockchain_data_fails_after_reindexing_witness :
  add_blockchain_data api_dated_mempool 0 "1year" None fetched_world
  = (Raise TypeError,
     mkWorld
       (<[0:=mkDF (columns fetched_100)
               (map (fun r => (Pandas.date_of r.1, r.2)) (rows fetched_100))]>
          (heap fetched_world))
       (epochs_run fetched_world)).
Proof.
  apply (add_blockchain_data_fails_after_reindexing api_dated_mempool 0
           "1year" None fetched_world fetched_100).
  - reflexivity.
  - vm_compute. reflexivity.
  - vm_compute. reflexivity.
Defined.

(** ** Rows and columns of the merged table *)

Section MergedShape.
Import Pandas.

Lemma merge_row_nonempty (right : DataFrame) (l : label * list cell) :
  1 <= length (merge_row right l).
Proof.
  unfold merge_row. destruct (matches l.1 right) as [|x xs]; simpl; lia.
Qed.

Lemma length_merge_row (right : DataFrame) (l : label * list cell) :
  length (merge_row right l) = max 1 (length (matches l.1 right)).
Proof.
  unfold merge_row. destruct (matches l.1 right) as [|x xs]; simpl; [done|].
  by rewrite length_map.
Qed.

Lemma nrows_merge_left_ge (left right : DataFrame) :
  nrows left <= nrows (merge_left left right).
Proof.
  unfold nrows, merge_left; simpl.
  induction (rows left) as [|l ls IH]; [simpl; lia|].
  rewrite bind_cons, length_app. pose proof (merge_row_nonempty right l).
  simpl. lia.
Qed.

Lemma nrows_merge_left_gt (left right : DataFrame) (l : label * list cell) :
  l ∈ rows left -> 2 <= length (matches l.1 right) ->
  nrows left < nrows (merge_left left right).
Proof.
  unfold nrows, merge_left; simpl. intros Hl Hm.
  induction (rows left) as [|x xs IH]; [by apply elem_of_nil in Hl|].
  rewrite bind_cons, length_app. apply elem_of_cons in Hl as [<-|Hl].
  - rewrite length_merge_row.
    assert (length xs <= length (xs ≫= merge_row right)); [|simpl; lia].
    clear. induction xs as [|y ys IH]; [simpl; lia|].
    rewrite bind_cons, length_app. pose proof (merge_row_nonempty right y).
    simpl. lia.
  - pose proof (merge_row_nonempty right x). specialize (IH Hl). simpl. lia.
Qed.

Lemma index_merge_left_unique (left right : DataFrame) :
  NoDup (keys right) -> index (merge_left left right) = index left.
Proof.
  intros Hnd. unfold index. rewrite rows_merge_left_unique by done.
  rewrite <- list_fmap_compose. apply list_fmap_ext. by intros _ [l cs] _.
Qed.

End MergedShape.

(** X6: the merge step never loses a primary row: the merged table has at
    least as many rows as the primary table. When no auxiliary series repeats
    a date, it has exactly the primary table's index, row for row; a date
    repeated in the hash-rate series and present in the primary table makes
    the merged table strictly longer. *)
Theorem merged_rows_follow_primary (data h a n m mp merged : DataFrame) :
  merge_blockchain_data data h a n m mp = Ok merged ->
  nrows data <= nrows merged /\
  (Forall (fun aux => NoDup (keys aux)) [h; a; n; m] ->
   index merged = index data) /\
  (forall l, l ∈ rows data -> 2 <= length (Pandas.matches l.1 h) ->
             nrows data < nrows merged).
Proof.
  rewrite merge_blockchain_data_all.
  destruct (Pandas.resample_D_mean mp) as [daily|e] eqn:E; [|done].
  unfold rbind. intros [= <-].
  pose proof (nrows_merge_left_ge data h) as H1.
  pose proof (nrows_merge_left_ge (Pandas.merge_left data h) a) as H2.
  pose proof (nrows_merge_left_ge
                (Pandas.merge_left (Pandas.merge_left data h) a) n) as H3.
  pose proof (nrows_merge_left_ge
                (Pandas.merge_left
                   (Pandas.merge_left (Pandas.merge_left data h) a) n) m)
    as H4.
  pose proof (nrows_merge_left_ge
                (Pandas.merge_left
                   (Pandas.merge_left
                      (Pandas.merge_left (Pandas.merge_left data h) a) n) m)
                daily) as H5.
  split; [|split].
  - unfold merge_all; simpl. lia.
  - intros Hk.
    destruct (resample_D_mean_wf _ _ E) as [_ Hkd].
    apply Forall_cons in Hk as [Hkh Hk]. apply Forall_cons in Hk as [Hka Hk].
    apply Forall_cons in Hk as [Hkn Hk]. apply Forall_cons in Hk as [Hkm _].
    unfold merge_all; simpl.
    by rewrite !index_merge_left_unique.
  - intros l Hl Hm.
    pose proof (nrows_merge_left_gt data h l Hl Hm).
    unfold merge_all; simpl. lia.
Qed.

Lemma merged_rows_follow_primary_witness :
  nrows primary_100 <= nrows merged_100 /\
  (Forall (fun aux => NoDup (keys aux))
     [hash_rate_3; avg_block_size_3; network_difficulty_3; miners_revenue_3] ->
   index merged_100 = index primary_100) /\
  (forall l, l ∈ rows primary_100 ->
             2 <= length (Pandas.matches l.1 hash_rate_3) ->
             nrows primary_100 < nrows merged_100).
Proof.
  apply (merged_rows_follow_primary primary_100 hash_rate_3 avg_block_size_3
           network_difficulty_3 miners_revenue_3 mempool_size_3 merged_100).
  vm_compute. reflexivity.
Defined.

(** X7: when the column names of the caller's table and of the five fetched
    series are all distinct, the table [add_blockchain_data] returns has the
    caller's columns followed by those of the hash rate, the average block
    size, the network difficulty, the miners' revenue and the mempool size,
    in this order, none of them renamed. *)
Theorem blockchain_columns_in_merge_order
    (api : blockchain_api) (data r : ref) (timespan : string)
    (start : option string) (w w' : world) (d : DataFrame) :
  add_blockchain_data api data timespan start w = (Ok r, w') ->
  heap w !! data = Some d ->
  NoDup (columns d
         ++ columns (get_hash_rate_over_time api timespan start)
         ++ columns (get_avg_block_size api timespan start)
         ++ columns (get_network_difficulty api timespan start)
         ++ columns (get_miners_revenue api timespan start)
         ++ columns (get_mempool_size api timespan start)) ->
  exists t,
    heap w' !! r = Some t /\
    columns t
    = columns d
      ++ columns (get_hash_rate_over_time api timespan start)
      ++ columns (get_avg_block_size api timespan start)
      ++ columns (get_network_difficulty api timespan start)
      ++ columns (get_miners_revenue api timespan start)
      ++ columns (get_mempool_size api timespan start).
Proof.
  intros Hrun Hd Hnd.
  apply add_blockchain_data_run in Hrun
    as (d0 & dated & merged & Hd0 & Hidx & Hc & Hcells & Hm & -> & ->).
  rewrite Hd in Hd0. injection Hd0 as <-.
  destruct (heap_updated_and_extended (heap w) data d dated (clean merged) Hd)
    as (_ & _ & _ & Hr & _).
  exists (clean merged). split; [done|].
  rewrite merge_blockchain_data_all in Hm.
  destruct (Pandas.resample_D_mean _) as [daily|] eqn:E; [|done].
  unfold rbind in Hm.
  destruct (resample_D_mean_rows _ _ E) as [Hcd _].
  set (auxs := [get_hash_rate_over_time api timespan start;
                get_avg_block_size api timespan start;
                get_network_difficulty api timespan start;
                get_miners_revenue api timespan start; daily]).
  assert (merged = merge_all dated auxs) as ->
    by (injection Hm as <-; reflexivity).
  transitivity (columns (merge_all dated auxs)); [reflexivity|].
  assert (columns dated ++ concat (columns <$> auxs)
          = columns d
            ++ columns (get_hash_rate_over_time api timespan start)
            ++ columns (get_avg_block_size api timespan start)
            ++ columns (get_network_difficulty api timespan start)
            ++ columns (get_miners_revenue api timespan start)
            ++ columns (get_mempool_size api timespan start)) as Heq.
  { unfold auxs. simpl. by rewrite Hc, Hcd, app_nil_r. }
  rewrite columns_merge_all_disjoint; [done|]. by rewrite Heq.
Qed.

Lemma blockchain_columns_in_merge_order_witness :
  exists t,
    heap blockchain_world !! 1 = Some t /\
    columns t
    = columns fetched_100
      ++ columns (get_hash_rate_over_time api_3 "1year" None)
      ++ columns (get_avg_block_size api_3 "1year" None)
      ++ columns (get_network_difficulty api_3 "1year" None)
      ++ columns (get_miners_revenue api_3 "1year" None)
      ++ columns (get_mempool_size api_3 "1year" None).
Proof.
  apply (blockchain_columns_in_merge_order api_3 0 1 "1year" None
           fetched_world blockchain_world fetched_100).
  - vm_compute. reflexivity.
  - reflexivity.
  - apply (bool_decide_unpack _). vm_compute. reflexivity.
Defined.

(** ** The mempool column *)

Section MempoolColumn.
Import Pandas.

Lemma means_of_no_sample (n : nat) :
  map (fun j : nat => mean (map (fun r : label * list cell => cell_at j r.2) []))
      (seq 0 n)
  = replicate n None.
Proof.
  generalize 0. induction n as [|n IH]; intros s; [done|].
  simpl. f_equal. apply IH.
Qed.

(** X8: in the table [add_blockchain_data] merges, a row dated [d] ends with
    the mempool columns, each holding the mean of the mempool samples taken
    on day [d], and an undefined value when no sample was taken that day; the
    cells before them are those of the row after the first four joins. *)
Theorem mempool_cells_are_daily_means (data h a n m mp merged : DataFrame) :
  merge_blockchain_data data h a n m mp = Ok merged ->
  forall r' d,
    r' ∈ rows merged -> r'.1 = Date d ->
    exists front,
      (Date d, front) ∈ rows (merge_all data [h; a; n; m]) /\
      r'.2
      = front
        ++ map (fun j => mean (map (fun r => cell_at j r.2) (samples_on d mp)))
               (seq 0 (ncols mp)).
Proof.
  rewrite merge_blockchain_data_all.
  destruct (resample_D_mean mp) as [daily|e] eqn:E; [|done].
  unfold rbind. intros [= <-] r' d Hr' Hd.
  destruct (resample_D_mean_rows _ _ E) as (Hc & days & Hnd & Hdays & Hrows).
  change (merge_all data [h; a; n; m; daily])
    with (merge_left (merge_all data [h; a; n; m]) daily) in Hr'.
  apply elem_of_merge_left in Hr' as (l & b & Hl & Hb & ->).
  simpl in Hd. destruct l as [l0 front]. simpl in *. subst l0.
  exists front. split; [done|]. f_equal.
  destruct Hb as [r Hr Hk | Habs].
  - rewrite Hrows in Hr. apply list_elem_of_fmap in Hr as (d' & -> & _).
    simpl in Hk. injection Hk as Hk. apply midnight_inj in Hk as ->. done.
  - assert (samples_on d mp = []) as ->.
    { apply elem_of_nil_inv. intros r Hr. apply Habs.
      unfold samples_on in Hr. apply list_elem_of_filter in Hr as [Hday Hr].
      rewrite keys_fmap, Hrows, <- list_fmap_compose.
      apply list_elem_of_fmap. exists d. split; [done|].
      apply Hdays. exists d, d.
      assert (d ∈ sampled_days mp); [|split; [done|split; [done|lia]]].
      unfold sampled_days, index. rewrite <- Hday.
      rewrite <- list_fmap_compose. apply list_elem_of_fmap. by exists r. }
    rewrite means_of_no_sample. unfold ncols. by rewrite Hc.
Qed.

End MempoolColumn.

Lemma mempool_cells_are_daily_means_witness :
  exists front,
    (Date 10, front)
      ∈ rows (merge_all primary_100
                [hash_rate_3; avg_block_size_3; network_difficulty_3;
                 miners_revenue_3]) /\
    merged_row_10.2
    = front
      ++ map (fun j =>
                Pandas.mean (map (fun r => Pandas.cell_at j r.2)
                               (Pandas.samples_on 10 mempool_size_3)))
             (seq 0 (ncols mempool_size_3)).
Proof.
  apply (mempool_cells_are_daily_means primary_100 hash_rate_3
           avg_block_size_3 network_difficulty_3 miners_revenue_3
           mempool_size_3 merged_100).
  - vm_compute. reflexivity.
  - apply (list_elem_of_lookup_2 _ 10). vm_compute. reflexivity.
  - reflexivity.
Defined.

(** ** What the stages return *)

Lemma clean_rows_defined (t : DataFrame) row :
  row ∈ rows (clean t) -> None ∉ row.2.
Proof.
  unfold clean; simpl. intros H. apply list_elem_of_filter in H as [H _].
  by apply all_defined_iff.
Qed.

Lemma clean_clean (t : DataFrame) : clean (clean t) = clean t.
Proof. unfold clean; simpl. f_equal. apply filter_idemp. Qed.

Lemma run_clean_data r w t :
  heap w !! r = Some t ->
  clean_data r w
  = (Ok (length (heap w)), mkWorld (heap w ++ [clean t]) (epochs_run w)).
Proof.
  intros Ht. unfold clean_data. by rewrite run_bind, (run_deref _ _ _ Ht).
Qed.

(** X9: the table each stage returns has no undefined value left, so that
    cleaning it once more, as line 44 of [main] does after the two stages,
    creates a table equal to it. *)
Theorem stages_return_clean_tables
    (ta : ta_library) (api : blockchain_api)
    (data1 r1 : ref) (w1 w1' : world)
    (data2 r2 : ref) (timespan : string) (start : option string)
    (w2 w2' : world) :
  add_all_technical_indicators ta data1 w1 = (Ok r1, w1') ->
  add_blockchain_data api data2 timespan start w2 = (Ok r2, w2') ->
  (exists t,
      heap w1' !! r1 = Some t /\
      (forall row, row ∈ rows t -> None ∉ row.2) /\
      clean_data r1 w1'
      = (Ok (length (heap w1')), mkWorld (heap w1' ++ [t]) (epochs_run w1'))) /\
  (exists t,
      heap w2' !! r2 = Some t /\
      (forall row, row ∈ rows t -> None ∉ row.2) /\
      clean_data r2 w2'
      = (Ok (length (heap w2')), mkWorld (heap w2' ++ [t]) (epochs_run w2'))).
Proof.
  intros H1 H2. split.
  - apply add_all_technical_indicators_run in H1
      as (d & d' & Hd & _ & _ & _ & -> & ->).
    destruct (heap_updated_and_extended (heap w1) data1 d d' (clean d') Hd)
      as (_ & _ & _ & Hr & _).
    exists (clean d'). split; [done|]. split; [apply clean_rows_defined|].
    rewrite (run_clean_data _ _ (clean d')) by done. by rewrite clean_clean.
  - apply add_blockchain_data_run in H2
      as (d & dated & merged & Hd & _ & _ & _ & _ & -> & ->).
    destruct (heap_updated_and_extended (heap w2) data2 d dated (clean merged) Hd)
      as (_ & _ & _ & Hr & _).
    exists (clean merged). split; [done|]. split; [apply clean_rows_defined|].
    rewrite (run_clean_data _ _ (clean merged)) by done. by rewrite clean_clean.
Qed.

Lemma stages_return_clean_tables_witness :
  (exists t,
      heap indicators_world !! 1 = Some t /\
      (forall row, row ∈ rows t -> None ∉ row.2) /\
      clean_data 1 indicators_world
      = (Ok (length (heap indicators_world)),
         mkWorld (heap indicators_world ++ [t]) (epochs_run indicators_world))) /\
  (exists t,
      heap blockchain_world !! 1 = Some t /\
      (forall row, row ∈ rows t -> None ∉ row.2) /\
      clean_data 1 blockchain_world
      = (Ok (length (heap blockchain_world)),
         mkWorld (heap blockchain_world ++ [t]) (epochs_run blockchain_world))).
Proof.
  apply (stages_return_clean_tables ta_close api_3
           0 1 closes_world indicators_world
           0 1 "1year" None fetched_world blockchain_world).
  - vm_compute. reflexivity.
  - vm_compute. reflexivity.
Defined.

(** X10: when none of the first four fetched series repeats a date, the rows
    of the table [add_blockchain_data] returns are rows of the caller's
    table under their dates: its index is a sub-sequence of the caller's
    dates, in the caller's order, so it has no more rows than the caller's
    table. *)
Theorem blockchain_rows_under_callers_dates
    (api : blockchain_api) (data r : ref) (timespan : string)
    (start : option string) (w w' : world) (d : DataFrame) :
  add_blockchain_data api data timespan start w = (Ok r, w') ->
  heap w !! data = Some d ->
  Forall (fun aux => NoDup (keys aux))
    [get_hash_rate_over_time api timespan start;
     get_avg_block_size api timespan start;
     get_network_difficulty api timespan start;
     get_miners_revenue api timespan start] ->
  exists t,
    heap w' !! r = Some t /\
    index t `sublist_of` map Pandas.date_of (index d) /\
    nrows t <= nrows d.
Proof.
  intros Hrun Hd Hk.
  apply add_blockchain_data_run in Hrun
    as (d0 & dated & merged & Hd0 & Hidx & Hc & Hcells & Hm & -> & ->).
  rewrite Hd in Hd0. injection Hd0 as <-.
  destruct (heap_updated_and_extended (heap w) data d dated (clean merged) Hd)
    as (_ & _ & _ & Hr & _).
  assert (index dated = map Pandas.date_of (index d)) as Hdates.
  { unfold Pandas.index_date in Hidx.
    destruct (forallb is_timestamp (index d)); [|done]. by injection Hidx. }
  rewrite merge_blockchain_data_all in Hm.
  destruct (Pandas.resample_D_mean _) as [daily|] eqn:E; [|done].
  destruct (resample_D_mean_wf _ _ E) as [_ Hkd].
  apply Forall_cons in Hk as [Hkh Hk]. apply Forall_cons in Hk as [Hka Hk].
  apply Forall_cons in Hk as [Hkn Hk]. apply Forall_cons in Hk as [Hkm _].
  assert (index merged = index dated) as Hmerged.
  { unfold rbind in Hm. injection Hm as <-. unfold merge_all; simpl.
    by rewrite !index_merge_left_unique. }
  assert (index (clean merged) `sublist_of` map Pandas.date_of (index d))
    as Hsub.
  { rewrite <- Hdates, <- Hmerged. unfold index, clean; simpl.
    apply fmap_sublist, sublist_filter. }
  exists (clean merged). split; [done|]. split; [done|].
  apply sublist_length in Hsub. unfold index in Hsub.
  rewrite length_fmap, length_map, length_fmap in Hsub. done.
Qed.

Lemma blockchain_rows_under_callers_dates_witness :
  exists t,
    heap blockchain_world !! 1 = Some t /\
    index t `sublist_of` map Pandas.date_of (index fetched_100) /\
    nrows t <= nrows fetched_100.
Proof.
  apply (blockchain_rows_under_callers_dates api_3 0 1 "1year" None
           fetched_world blockchain_world fetched_100).
  - vm_compute. reflexivity.
  - reflexivity.
  - apply (bool_decide_unpack _). vm_compute. reflexivity.
Defined.

(** ** [extract_lstm_features]: outcomes and edge cases *)

(** X11: whatever the library, the table and the window length,
    [extract_lstm_features] changes no existing table: it either raises,
    leaving the tables as they are, or returns a new reference to one new
    table carrying a column [lstm_feature]. The ten training epochs are run
    exactly when the table could be cut into windows, also when a later step
    raises. *)
Theorem extract_lstm_features_outcomes
    (lstm : lstm_library) (df : ref) (L : Z) (w : world) :
  let res := (extract_lstm_features lstm df L w).1 in
  let w' := (extract_lstm_features lstm df L w).2 in
  (forall r0, r0 < length (heap w) -> heap w' !! r0 = heap w !! r0) /\
  ((exists e, res = Raise e /\ heap w' = heap w) \/
   (exists out, res = Ok (length (heap w)) /\ heap w' = heap w ++ [out] /\
                "lstm_feature" ∈ columns out)) /\
  (epochs_run w' = epochs_run w + 10 <->
   exists d X, heap w !! df = Some d /\ create_sequences lstm d L = Ok X) /\
  (epochs_run w' = epochs_run w \/ epochs_run w' = epochs_run w + 10).
Proof.
  cbn zeta.
  destruct (heap w !! df) as [d|] eqn:Hd.
  2:{ assert (extract_lstm_features lstm df L w = (Raise TypeError, w)) as ->.
      { unfold extract_lstm_features, deref. rewrite run_bind. by rewrite Hd. }
      simpl. split; [done|]. split; [left; eauto|]. split; [|by left].
      split; [lia|]. by intros (? & ? & ? & _). }
  destruct (create_sequences lstm d L) as [X|e] eqn:HX.
  2:{ rewrite (extract_lstm_features_rejected _ _ _ _ _ _ Hd HX). simpl.
      split; [done|]. split; [left; eauto|]. split; [|by left].
      split; [lia|]. intros (d' & X & Hd' & HX').
      injection Hd' as <-. congruence. }
  rewrite (extract_lstm_features_run _ _ _ _ _ _ Hd HX).
  destruct (attach_features d L (features_mean_of lstm d L X)) as [out|e] eqn:Ha;
    simpl.
  - split; [intros r0 Hr0; by rewrite lookup_app_l|].
    split; [|split; [split; eauto|by right]].
    right. exists out. split; [done|]. split; [done|].
    unfold attach_features in Ha. rewrite set_index_features in Ha.
    case_bool_decide; [|done]. unfold rbind, Pandas.concat_axis1 in Ha.
    repeat case_bool_decide; try done; injection Ha as <-; simpl;
      apply elem_of_app; right; left.
  - split; [done|]. split; [left; eauto|]. split; [split; eauto|by right].
Qed.

Section WindowLabels.
Import Pandas.

Lemma length_slice_window_labels {A} (L : Z) (l : list A) :
  length (slice (L - 1) (-1) l) = window_labels L (length l).
Proof.
  unfold slice, slice_bound, window_labels.
  rewrite length_take, length_drop.
  destruct (Z.ltb_spec (-1) 0) as [_|?]; [|lia].
  destruct (Z.ltb_spec (L - 1) 0); destruct (Z.leb_spec 1 L); lia.
Qed.

End WindowLabels.

(** X12: the index assignment of line 153 decides on the number of windows
    alone. Once the windows are made, [extract_lstm_features] raises
    [ValueError] exactly when the number of per-window means differs from the
    number of labels of [index[L - 1 : -1]], which is [N - L], or 0 if that is
    negative, for a window length [L >= 1] on [N] rows. *)
Theorem reindexing_fails_on_window_count
    (lstm : lstm_library) (df : ref) (L : Z) (w : world) (d : DataFrame)
    (X : list window) :
  heap w !! df = Some d -> create_sequences lstm d L = Ok X ->
  ((extract_lstm_features lstm df L w).1 = Raise ValueError <->
   length (features_mean_of lstm d L X) <> window_labels L (nrows d)) /\
  ((1 <= L)%Z -> window_labels L (nrows d) = nrows d - Z.to_nat L).
Proof.
  intros Hd HX. split.
  - rewrite (extract_lstm_features_run _ _ _ _ _ _ Hd HX).
    set (fm := features_mean_of lstm d L X).
    assert (length (Pandas.slice (L - 1) (-1) (index d))
            = window_labels L (nrows d)) as Hlen.
    { rewrite length_slice_window_labels. unfold index, nrows.
      by rewrite length_fmap. }
    destruct (decide (length fm = window_labels L (nrows d))) as [Heq|Hne].
    + split; [|done]. unfold attach_features.
      rewrite set_index_features, bool_decide_eq_true_2 by congruence.
      unfold rbind, Pandas.concat_axis1.
      repeat case_bool_decide; simpl; discriminate.
    + split; [done|]. intros _.
      rewrite attach_features_mismatch by congruence. done.
  - intros HL. unfold window_labels.
    destruct (Z.leb_spec 1 L); lia.
Qed.

Lemma reindexing_fails_on_window_count_witness :
  ((extract_lstm_features lstm_none 0 5 closes_world).1 = Raise ValueError <->
   length (features_mean_of lstm_none closes_table 5 [])
   <> window_labels 5 (nrows closes_table)) /\
  ((1 <= 5)%Z ->
   window_labels 5 (nrows closes_table) = nrows closes_table - Z.to_nat 5).
Proof.
  apply (reindexing_fails_on_window_count lstm_none 0 5 closes_world
           closes_table []).
  - reflexivity.
  - reflexivity.
Defined.

(** X13: [extract_lstm_features] itself puts no bound on the window length.
    When the window length is at least the number of rows and the library
    yields no window and no output, the ten epochs are run and the function
    returns, on a table with distinct labels, a new table whose column
    [lstm_feature] is undefined on every row. *)
Theorem no_window_gives_undefined_feature
    (lstm : lstm_library) (df : ref) (L : Z) (w : world) (d : DataFrame)
    (X : list window) :
  heap w !! df = Some d -> NoDup (index d) ->
  (1 <= L)%Z -> (Z.of_nat (nrows d) <= L)%Z ->
  create_sequences lstm d L = Ok X ->
  features_mean_of lstm d L X = [] ->
  extract_lstm_features lstm df L w
  = (Ok (length (heap w)),
     mkWorld
       (heap w
        ++ [mkDF (columns d ++ ["lstm_feature"])
              (map (fun x => (x.1, x.2 ++ [None])) (rows d))])
       (epochs_run w + 10)).
Proof.
  intros Hd Hnd HL HN HX Hfm.
  rewrite (extract_lstm_features_run _ _ _ _ _ _ Hd HX), Hfm.
  assert (Pandas.slice (L - 1) (-1) (index d) = []) as Hslice.
  { apply length_zero_iff_nil. rewrite length_slice_window_labels.
    unfold window_labels, index. rewrite length_fmap. fold (nrows d).
    destruct (Z.leb_spec 1 L); lia. }
  unfold attach_features.
  rewrite set_index_features, Hslice. simpl.
  unfold Pandas.concat_axis1. simpl index at 2. simpl.
  case_bool_decide as Hidx.
  - assert (rows d = []) as Hrows.
    { unfold index in Hidx. by apply fmap_nil_inv in Hidx. }
    by rewrite Hrows.
  - rewrite bool_decide_eq_true_2 by (split; [done | constructor]).
    do 3 f_equal. rewrite app_nil_r. unfold index.
    rewrite <- list_fmap_compose. do 2 f_equal. apply list_fmap_ext.
    intros i [l cells] Hi. simpl.
    by rewrite (row_or_nan_lookup d i l cells Hnd Hi).
Qed.

Lemma no_window_gives_undefined_feature_witness :
  extract_lstm_features lstm_none 0 5 closes_world
  = (Ok (length (heap closes_world)),
     mkWorld
       (heap closes_world
        ++ [mkDF (columns closes_table ++ ["lstm_feature"])
              (map (fun x => (x.1, x.2 ++ [None])) (rows closes_table))])
       (epochs_run closes_world + 10)).
Proof.
  apply (no_window_gives_undefined_feature lstm_none 0 5 closes_world
           closes_table []).
  - reflexivity.
  - apply (bool_decide_unpack _). vm_compute. reflexivity.
  - vm_compute. discriminate.
  - vm_compute. discriminate.
  - reflexivity.
  - reflexivity.
Defined.

(** ** When the stages succeed *)

Lemma holds_close_getitem data N close w (B : Type) (k : list cell -> M B)
    (res : result B * world) :
  holds_close data N close w ->
  k close w = res ->
  (getitem_at data "Close" ≫= k) w = res.
Proof.
  intros (d & Hd & _ & _ & Hc) Hk.
  by rewrite run_bind, (run_getitem_at _ _ _ _ Hd), Hc.
Qed.

Lemma holds_close_setitem data N close w c vals (B : Type) (k : unit -> M B) :
  holds_close data N close w -> c <> "Close" -> length vals = N ->
  exists w2, holds_close data N close w2 /\
             (setitem_at data c vals ≫= k) w = k tt w2.
Proof.
  intros (d & Hd & Hwf & Hn & Hc) Hne Hlen.
  destruct (getitem_setitem c vals d Hwf) as (d2 & Hset & _ & Hwf2 & _ & Hn2);
    [congruence|].
  exists (mkWorld (<[data:=d2]> (heap w)) (epochs_run w)). split.
  - exists d2. split; [by apply (heap_lookup_assigned _ _ d)|].
    split; [done|]. split; [congruence|].
    rewrite (getitem_setitem_ne "Close" c vals d d2); [done| |done|done].
    congruence.
  - by rewrite run_bind, (run_setitem_at _ _ _ _ _ _ Hd Hset).
Qed.

(** One assignment of [add_all_technical_indicators], run forward. *)
Ltac assign_forward Hr :=
  lazymatch goal with
  | |- exists r w', (setitem_at ?data ?c ?vals ≫= ?k) ?w = _ =>
      let w2 := fresh "w" in
      let Hr2 := fresh "Hr" in
      let Heq := fresh "Heq" in
      destruct (holds_close_setitem data _ _ w c vals _ k Hr) as (w2 & Hr2 & Heq);
      [ discriminate | | rewrite Heq; clear Heq Hr; rename Hr2 into Hr ]
  end.

Ltac deref_forward Hderef Hr d1 Hn1 :=
  lazymatch goal with
  | |- exists r w', (deref ?data ≫= ?k) ?w = _ =>
      let Heq := fresh "Heq" in
      destruct (Hderef _ k w Hr) as (d1 & Hn1 & Heq);
      rewrite Heq; clear Heq; cbv beta
  end.

(** X14: with indicators that return one value per row,
    [add_all_technical_indicators] succeeds on every well-formed table that
    has a [Close] column: none of its fifteen assignments raises, and it
    returns a new reference. *)
Theorem add_all_technical_indicators_succeeds
    (ta : ta_library) (data : ref) (w : world) (d : DataFrame) :
  aligned ta ->
  heap w !! data = Some d -> wf d -> "Close" ∈ columns d ->
  exists r w', add_all_technical_indicators ta data w = (Ok r, w').
Proof.
  intros (Hbb & Hso & Hmacd & Hrsi & Hsma & Hema & Hatr & Hmh & Hobv & Hcci)
         Hd Hwf Hclose.
  destruct (Pandas.getitem "Close" d) as [close|e] eqn:Hc.
  2:{ unfold Pandas.getitem in Hc.
      destruct (Pandas.col_index "Close" (columns d)) eqn:E; [done|].
      by apply col_index_None in E. }
  assert (length close = nrows d) as Hlen by (by eapply getitem_length).
  assert (holds_close data (nrows d) close w) as Hr by (by exists d).
  unfold add_all_technical_indicators.
  assert (forall (B : Type) (k : list cell -> M B) w0,
             holds_close data (nrows d) close w0 ->
             (getitem_at data "Close" ≫= k) w0 = k close w0) as Hget.
  { intros B k w0 Hw0.
    by apply (holds_close_getitem data (nrows d) close w0 B k). }
  assert (forall (B : Type) (k : DataFrame -> M B) w0,
             holds_close data (nrows d) close w0 ->
             exists d0, nrows d0 = nrows d /\
                        (deref data ≫= k) w0 = k d0 w0) as Hderef.
  { intros B k w0 (d0 & Hd0 & _ & Hn0 & _). exists d0. split; [done|].
    by rewrite run_bind, (run_deref _ _ _ Hd0). }
  rewrite (Hget _ _ _ Hr).
  destruct (Hbb close) as (Hb1 & Hb2 & Hb3).
  destruct (calculate_bollinger_bands ta close) as [[u m] l]; simpl in *.
  assign_forward Hr; [congruence|].
  assign_forward Hr; [congruence|].
  assign_forward Hr; [congruence|].
  deref_forward Hderef Hr d1 Hn1.
  destruct (Hso d1) as (Hs1 & Hs2).
  destruct (calculate_stochastic_oscillator ta d1) as [sk sd]; simpl in *.
  assign_forward Hr; [congruence|].
  assign_forward Hr; [congruence|].
  rewrite (Hget _ _ _ Hr).
  destruct (Hmacd close) as (Hm1 & Hm2 & Hm3).
  destruct (calculate_macd ta close) as [[ma ms] mh]; simpl in *.
  assign_forward Hr; [congruence|].
  assign_forward Hr; [congruence|].
  assign_forward Hr; [congruence|].
  rewrite (Hget _ _ _ Hr).
  assign_forward Hr; [rewrite Hrsi; congruence|].
  rewrite (Hget _ _ _ Hr).
  assign_forward Hr; [rewrite Hsma; congruence|].
  rewrite (Hget _ _ _ Hr).
  assign_forward Hr; [rewrite Hema; congruence|].
  deref_forward Hderef Hr d2 Hn2.
  assign_forward Hr; [rewrite Hatr; congruence|].
  rewrite (Hget _ _ _ Hr).
  assign_forward Hr; [rewrite Hmh; congruence|].
  deref_forward Hderef Hr d3 Hn3.
  assign_forward Hr; [rewrite Hobv; congruence|].
  deref_forward Hderef Hr d4 Hn4.
  assign_forward Hr; [rewrite Hcci; congruence|].
  destruct Hr as (d5 & Hd5 & _).
  rewrite (run_clean_data _ _ d5 Hd5). eauto.
Qed.

Lemma add_all_technical_indicators_succeeds_witness :
  exists r w', add_all_technical_indicators ta_first 0 closes_world = (Ok r, w').
Proof.
  apply (add_all_technical_indicators_succeeds ta_first 0 closes_world
           closes_table).
  - unfold aligned, column_at, nrows; simpl.
    repeat split; intros; apply length_map.
  - reflexivity.
  - repeat constructor.
  - apply (bool_decide_unpack _). vm_compute. reflexivity.
Defined.

(** X15: [add_blockchain_data] succeeds only when the index of the caller's
    table and the index of the fetched mempool series both hold timestamps
    only, line 69 raising on the one and line 84 on the other; the reference
    it then returns is a new one, of no table of the state it was called
    in. *)
Theorem add_blockchain_data_succeeds_only_on_timestamps
    (api : blockchain_api) (data r : ref) (timespan : string)
    (start : option string) (w w' : world) (d : DataFrame) :
  heap w !! data = Some d ->
  add_blockchain_data api data timespan start w = (Ok r, w') ->
  forallb is_timestamp (index d) = true /\
  forallb is_timestamp (index (get_mempool_size api timespan start)) = true /\
  r = length (heap w) /\ heap w !! r = None.
Proof.
  intros Hd Hrun.
  destruct (forallb is_timestamp (index d)) eqn:Hts.
  - destruct (forallb is_timestamp
                (index (get_mempool_size api timespan start))) eqn:Hmp.
    + apply add_blockchain_data_run in Hrun
        as (d0 & _ & _ & _ & _ & _ & _ & _ & _ & ->).
      repeat split. by apply lookup_ge_None_2.
    + rewrite (add_blockchain_data_resample_fails _ _ _ _ _ _ Hd Hts Hmp)
        in Hrun.
      discriminate.
  - rewrite (add_blockchain_data_refused _ _ _ _ _ _ Hd Hts) in Hrun.
    discriminate.
Qed.

Lemma add_blockchain_data_succeeds_only_on_timestamps_witness :
  forallb is_timestamp (index fetched_100) = true /\
  forallb is_timestamp (index (get_mempool_size api_3 "1year" None)) = true /\
  1 = length (heap fetched_world) /\ heap fetched_world !! 1 = None.
Proof.
  apply (add_blockchain_data_succeeds_only_on_timestamps api_3 0 1 "1year"
           None fetched_world blockchain_world fetched_100).
  - reflexivity.
  - vm_compute. reflexivity.
Defined.
